(** * ESTsoft chatbot: knowledge ingestion and retrieval engine

    A shallow embedding of the core of the repository:
    - [backend/retriever.py]   ([Retriever.search] and its confidence gate),
    - [backend/embedder.py]    ([Embedder.embed] and its retry loop),
    - [scripts/build_embeddings.py] ([load_qa_pairs], [build_points], [main]).

    Python values are modelled as the code has them: a [str] is a sequence of
    Unicode code points, a [float] is a binary64 number, a [dict] with string
    keys is a finite map, an exception is a value of an inductive type, and
    calls to the outside world (embedding provider, vector index) are recorded
    in a trace that is threaded through the program. *)

From Stdlib Require Import ZArith NArith List Floats Uint63 Lia.
From Stdlib.Strings Require Import Byte.
From Stdlib Require DecimalString.
From stdpp Require Import gmap strings list fin_maps.

Set Warnings "-inexact-float,-register-all".
Open Scope string_scope.
Open Scope list_scope.

(** ** Python values *)

Module Py.

(** A Python [str]: its code points, in order. *)
Abbreviation str := (list N).

(** The code points of an ASCII literal of the source. *)
Fixpoint lit (s : string) : str :=
  match s with
  | EmptyString => []
  | String a s' => Ascii.N_of_ascii a :: lit s'
  end.

(** The values a JSON payload or a result dictionary may hold. *)
Inductive pyval : Type :=
| VNone
| VBool (b : bool)
| VInt (z : Z)
| VFloat (f : float)
| VStr (s : str)
| VList (l : list pyval)
| VDict (d : list (str * pyval)).

(** Python truth value testing: [None], [False], zero, and empty strings and
    containers are false; everything else (NaN included) is true. *)
Definition truthy (v : pyval) : bool :=
  match v with
  | VNone => false
  | VBool b => b
  | VInt z => negb (z =? 0)%Z
  | VFloat f => negb (f =? 0)%float
  | VStr s => match s with [] => false | _ => true end
  | VList l => match l with [] => false | _ => true end
  | VDict d => match d with [] => false | _ => true end
  end.

(** [a or b]. *)
Definition or_ (a b : pyval) : pyval := if truthy a then a else b.

Definition is_str (v : pyval) : bool :=
  match v with VStr _ => true | _ => false end.

(** An optional float as a dictionary value. *)
Definition of_score (s : option float) : pyval :=
  match s with Some f => VFloat f | None => VNone end.

(** Exceptions. [OpenAIError] and [HTTPError] are what the embedding client
    raises on a provider or transport failure; [cause] is [__cause__], set
    by [raise ... from exc]. *)
Inductive exc : Type :=
| OpenAIError (detail : string)
| HTTPError (detail : string)
| IndexError
| UnicodeEncodeError
| UnexpectedResponse (detail : string)
| OtherError (detail : string)
| EmbeddingError (msg : string) (cause : option exc)
| RetrievalError (msg : string) (cause : option exc).

Inductive outcome (A : Type) : Type :=
| Return (a : A)
| Raise (e : exc).
Arguments Return {A} a.
Arguments Raise {A} e.

(** The byte with the given value (values are below 256 wherever this is
    used). *)
Definition byte_of (n : N) : Byte.byte :=
  match Byte.of_N (n mod 256) with
  | Some b => b
  | None => Byte.x00
  end.

(** UTF-8 of one code point; a surrogate (or a value that is not a code
    point) cannot be encoded. *)
Definition encode_point (c : N) : option (list Byte.byte) :=
  (if c <? 0x80 then Some [byte_of c]
   else if c <? 0x800 then
     Some [byte_of (0xC0 + c / 64); byte_of (0x80 + c mod 64)]
   else if c <? 0x10000 then
     if (0xD800 <=? c) && (c <? 0xE000) then None
     else Some [byte_of (0xE0 + c / 4096);
                byte_of (0x80 + (c / 64) mod 64);
                byte_of (0x80 + c mod 64)]
   else if c <? 0x110000 then
     Some [byte_of (0xF0 + c / 262144);
           byte_of (0x80 + (c / 4096) mod 64);
           byte_of (0x80 + (c / 64) mod 64);
           byte_of (0x80 + c mod 64)]
   else None)%N.

(** [s.encode("utf-8")]; [None] stands for [UnicodeEncodeError]. *)
Fixpoint encode (s : str) : option (list Byte.byte) :=
  match s with
  | [] => Some []
  | c :: s' =>
      match encode_point c, encode s' with
      | Some b, Some bs => Some (b ++ bs)
      | _, _ => None
      end
  end.

(** The digits of a lower-case hexadecimal number: 0-9 and a-f. *)
Definition lower_hex (c : N) : bool :=
  ((48 <=? c) && (c <=? 57) || (97 <=? c) && (c <=? 102))%N.

(** [str.isspace] on one code point: the characters [str.strip] removes. *)
Definition isspace (c : N) : bool :=
  ((9 <=? c) && (c <=? 13) || (28 <=? c) && (c <=? 32)
   || (c =? 0x85) || (c =? 0xA0) || (c =? 0x1680)
   || (0x2000 <=? c) && (c <=? 0x200A)
   || (c =? 0x2028) || (c =? 0x2029) || (c =? 0x202F)
   || (c =? 0x205F) || (c =? 0x3000))%N.

Fixpoint lstrip (s : str) : str :=
  match s with
  | c :: s' => if isspace c then lstrip s' else s
  | [] => []
  end.

Definition rstrip (s : str) : str := rev (lstrip (rev s)).

(** [s.strip()] *)
Definition strip (s : str) : str := rstrip (lstrip s).

(** A text without white space at either end. *)
Definition trimmed (s : str) : Prop :=
  match s with c :: _ => isspace c = false | [] => True end
  /\ match last s with Some c => isspace c = false | None => True end.

(** [str.upper] on the letters a-z. On other code points Python may change
    or lengthen the text, but never into a text that starts with "Q." or
    "A.": the only code points whose upper case starts with Q, A or a full
    stop are q, Q, a, A, the full stop itself, and U+1E9A, whose upper case
    is A followed by U+02BE. The prefix tests of [load_qa_pairs], the only
    users, are therefore the ones of the source. *)
Definition upper (s : str) : str :=
  map (fun c => if (0x61 <=? c) && (c <=? 0x7A) then c - 32 else c)%N s.

(** [s.startswith(prefix)] *)
Fixpoint startswith (s prefix : str) : bool :=
  match prefix, s with
  | [], _ => true
  | p :: prefix', c :: s' => (c =? p)%N && startswith s' prefix'
  | _ :: _, [] => false
  end.

(** [str(n)] for a non-negative [int]. *)
Definition decimal (n : nat) : str :=
  lit (DecimalString.NilZero.string_of_uint (Nat.to_uint n)).

(** A result that is a value or an error of type [E]. *)
Inductive result (E A : Type) : Type :=
| Ok (a : A)
| Err (e : E).
Arguments Ok {E A} a.
Arguments Err {E A} e.

End Py.
Import Py.

(** ** hashlib.md5 (RFC 1321), on 32-bit words held in [Z] *)

Module MD5.

Definition add32 (a b : Z) : Z := ((a + b) mod 2 ^ 32)%Z.
Definition not32 (a : Z) : Z := Z.lxor a 0xFFFFFFFF.
Definition rotl32 (x c : Z) : Z :=
  Z.lor (Z.shiftl x c mod 2 ^ 32)%Z (Z.shiftr x (32 - c)).

(** [floor(2^32 * abs(sin(i + 1)))] for [i] in [0..63]. *)
Definition K : list Z :=
  [ 0xd76aa478; 0xe8c7b756; 0x242070db; 0xc1bdceee;
    0xf57c0faf; 0x4787c62a; 0xa8304613; 0xfd469501;
    0x698098d8; 0x8b44f7af; 0xffff5bb1; 0x895cd7be;
    0x6b901122; 0xfd987193; 0xa679438e; 0x49b40821;
    0xf61e2562; 0xc040b340; 0x265e5a51; 0xe9b6c7aa;
    0xd62f105d; 0x02441453; 0xd8a1e681; 0xe7d3fbc8;
    0x21e1cde6; 0xc33707d6; 0xf4d50d87; 0x455a14ed;
    0xa9e3e905; 0xfcefa3f8; 0x676f02d9; 0x8d2a4c8a;
    0xfffa3942; 0x8771f681; 0x6d9d6122; 0xfde5380c;
    0xa4beea44; 0x4bdecfa9; 0xf6bb4b60; 0xbebfbc70;
    0x289b7ec6; 0xeaa127fa; 0xd4ef3085; 0x04881d05;
    0xd9d4d039; 0xe6db99e5; 0x1fa27cf8; 0xc4ac5665;
    0xf4292244; 0x432aff97; 0xab9423a7; 0xfc93a039;
    0x655b59c3; 0x8f0ccc92; 0xffeff47d; 0x85845dd1;
    0x6fa87e4f; 0xfe2ce6e0; 0xa3014314; 0x4e0811a1;
    0xf7537e82; 0xbd3af235; 0x2ad7d2bb; 0xeb86d391 ]%Z.

(** Per-round left rotations. *)
Definition S : list Z :=
  [ 7; 12; 17; 22; 7; 12; 17; 22; 7; 12; 17; 22; 7; 12; 17; 22;
    5; 9; 14; 20; 5; 9; 14; 20; 5; 9; 14; 20; 5; 9; 14; 20;
    4; 11; 16; 23; 4; 11; 16; 23; 4; 11; 16; 23; 4; 11; 16; 23;
    6; 10; 15; 21; 6; 10; 15; 21; 6; 10; 15; 21; 6; 10; 15; 21 ]%Z.

Record state : Type := { sa : Z; sb : Z; sc : Z; sd : Z }.

Definition init : state :=
  {| sa := 0x67452301; sb := 0xefcdab89; sc := 0x98badcfe; sd := 0x10325476 |}.

(** The message followed by 0x80, zeros up to 56 modulo 64, and the bit
    length as a 64-bit little-endian number. *)
Definition le_bytes (count : nat) (x : Z) : list Z :=
  map (fun k => (Z.shiftr x (8 * Z.of_nat k) mod 256)%Z) (seq 0 count).

Definition pad (msg : list Z) : list Z :=
  let len := Z.of_nat (length msg) in
  msg ++ [0x80%Z]
      ++ repeat 0%Z (Z.to_nat ((55 - len) mod 64))
      ++ le_bytes 8 ((8 * len) mod 2 ^ 64).

(** The little-endian 32-bit words of a run of bytes. *)
Fixpoint words (count : nat) (bytes : list Z) : list Z :=
  match count with
  | O => []
  | Datatypes.S count' =>
      match bytes with
      | b0 :: b1 :: b2 :: b3 :: rest =>
          (b0 + 256 * b1 + 65536 * b2 + 16777216 * b3)%Z :: words count' rest
      | _ => []
      end
  end.

(** Operation [i] of the 64 on the working state, for the block [M]. *)
Definition step (M : list Z) (s : state) (i : nat) : state :=
  let '(a, b, c, d) := (sa s, sb s, sc s, sd s) in
  let '(f, g) :=
    match (i / 16)%nat with
    | 0%nat => (Z.lor (Z.land b c) (Z.land (not32 b) d), i)
    | 1%nat => (Z.lor (Z.land d b) (Z.land (not32 d) c), (5 * i + 1) mod 16)%nat
    | 2%nat => (Z.lxor (Z.lxor b c) d, (3 * i + 5) mod 16)%nat
    | _ => (Z.lxor c (Z.lor b (not32 d)), (7 * i) mod 16)%nat
    end in
  let f := add32 (add32 (add32 f a) (nth i K 0%Z)) (nth g M 0%Z) in
  {| sa := d; sd := c; sc := b; sb := add32 b (rotl32 f (nth i S 0%Z)) |}.

Definition compress (s : state) (block : list Z) : state :=
  let M := words 16 block in
  let t := fold_left (step M) (seq 0 64) s in
  {| sa := add32 (sa s) (sa t); sb := add32 (sb s) (sb t);
     sc := add32 (sc s) (sc t); sd := add32 (sd s) (sd t) |}.

Fixpoint blocks (count : nat) (bytes : list Z) (s : state) : state :=
  match count with
  | O => s
  | Datatypes.S count' =>
      blocks count' (skipn 64 bytes) (compress s (firstn 64 bytes))
  end.

(** The 16 bytes of the digest. *)
Definition digest (msg : list Byte.byte) : list Z :=
  let padded := pad (map (fun b => Z.of_N (Byte.to_N b)) msg) in
  let s := blocks (length padded / 64) padded init in
  le_bytes 4 (sa s) ++ le_bytes 4 (sb s) ++ le_bytes 4 (sc s) ++ le_bytes 4 (sd s).

Definition hex_digit (d : Z) : N :=
  Z.to_N (if (d <? 10)%Z then 48 + d else 87 + d)%Z.

(** [hashlib.md5(msg).hexdigest()]: 32 lowercase hexadecimal digits. *)
Definition hexdigest (msg : list Byte.byte) : str :=
  flat_map (fun b => [hex_digit (b / 16); hex_digit (b mod 16)]) (digest msg).

End MD5.

(** ** backend/retriever.py *)

Module Retriever.

(** "검색 결과가 없습니다." *)
Definition NO_RESULTS : str :=
  [0xAC80; 0xC0C9; 0x20; 0xACB0; 0xACFC; 0xAC00; 0x20;
   0xC5C6; 0xC2B5; 0xB2C8; 0xB2E4; 0x2E]%N.

(** "⚠️ 신뢰도 낮음(score<threshold)" *)
Definition LOW_CONFIDENCE : str :=
  [0x26A0; 0xFE0F; 0x20; 0xC2E0; 0xB8B0; 0xB3C4; 0x20; 0xB0AE; 0xC74C]%N
    ++ lit "(score<threshold)".

(** A search hit of the vector index. *)
Record ScoredPoint : Type :=
  { score : option float;
    payload : option (gmap string pyval) }.

(** The fields of [Retriever] that [search] reads. *)
Record Retriever : Type :=
  { _collection : string;
    _threshold : float;
    _top_k : Z }.

(** What [self._client.search(...)] does: it returns hits or raises. *)
Inductive search_reply : Type :=
| Hits (hits : list ScoredPoint)
| Fails (e : exc).

(** [top_hit.score is None or top_hit.score < self._threshold] *)
Definition low_confidence (self : Retriever) (top_hit : ScoredPoint) : bool :=
  match score top_hit with
  | None => true
  | Some s => (s <? _threshold self)%float
  end.

(** [response[key] = payload[key]] when [key in payload]. *)
Definition copy_key (key : string) (payload response : gmap string pyval)
  : gmap string pyval :=
  match payload !! key with
  | Some v => <[key := v]> response
  | None => response
  end.

(** Lines 63-87: the decision made from the hits. *)
Definition decide_hits (self : Retriever) (hits : list ScoredPoint)
  : gmap string pyval :=
  match hits with
  | [] =>
      <["answer" := VStr NO_RESULTS]>
        (<["score" := VNone]>
           (<["warning" := VStr LOW_CONFIDENCE]> ∅))
  | top_hit :: _ =>
      (* [top_hit.payload or {}]: an empty payload is replaced by an
         empty dictionary, which changes nothing *)
      let payload := match payload top_hit with
                     | Some p => p
                     | None => ∅
                     end in
      let answer := match payload !! "answer" with
                    | Some v => v
                    | None => VNone
                    end in
      let response : gmap string pyval :=
        <["answer" := or_ answer (VStr NO_RESULTS)]>
          (<["score" := of_score (score top_hit)]> ∅) in
      let response := copy_key "question" payload response in
      let response := copy_key "source" payload response in
      if low_confidence self top_hit
      then <["warning" := VStr LOW_CONFIDENCE]> response
      else response
  end.

(** [(top_hit.payload or {}).get("answer")] *)
Definition top_answer (top_hit : ScoredPoint) : pyval :=
  match payload top_hit with
  | Some p => match p !! "answer" with Some v => v | None => VNone end
  | None => VNone
  end.

(** [Retriever.__init__]: the fields taken from the settings. *)
Definition __init__ (collection : string) (sim_threshold : float) (top_k : Z)
  : Retriever :=
  {| _collection := collection; _threshold := sim_threshold; _top_k := top_k |}.

(** [Retriever.search]. *)
Definition search (self : Retriever) (client_search : search_reply)
  : outcome (gmap string pyval) :=
  match client_search with
  | Fails e => Raise (RetrievalError "Vector search failed" (Some e))
  | Hits hits => Return (decide_hits self hits)
  end.

End Retriever.

(** ** backend/config.py and the outside world *)

Module IO.

(** [Settings]: the fields, with the defaults of the source. *)
Record Settings : Type :=
  { openai_api_key : str;
    embedding_model : str;
    qdrant_url : str;
    qdrant_api_key : option str;
    qdrant_collection : str;
    sim_threshold : float;
    top_k : Z }.

Definition default_embedding_model : str := lit "text-embedding-3-small".
Definition default_sim_threshold : float := 0.82%float.
Definition default_top_k : Z := 5.

(** Settings with the defaults of the source and placeholders for the
    required fields. *)
Definition local_settings : Settings :=
  {| openai_api_key := lit "sk-test";
     embedding_model := default_embedding_model;
     qdrant_url := lit "http://localhost:6333";
     qdrant_api_key := None;
     qdrant_collection := lit "qa";
     sim_threshold := default_sim_threshold;
     top_k := default_top_k |}.

(** [qmodels.PointStruct]. *)
Record PointStruct : Type :=
  { id : str;
    vector : list float;
    payload : gmap string pyval }.

(** The calls that leave the process, in the order they are made. *)
Inductive event : Type :=
| EmbeddingsCreate (model input : str) (timeout : Z)
| Sleep (seconds : float)
| GetCollection (name : str)
| CreateCollection (name : str) (size : Z) (distance : string)
| Upsert (name : str) (points : list PointStruct).

Definition trace : Type := list event.

Definition is_create (e : event) : bool :=
  match e with EmbeddingsCreate _ _ _ => true | _ => false end.
Definition is_sleep (e : event) : bool :=
  match e with Sleep _ => true | _ => false end.
Definition is_upsert (e : event) : bool :=
  match e with Upsert _ _ => true | _ => false end.

(** Number of embedding requests made so far. *)
Definition requests (w : trace) : nat := length (List.filter is_create w).

(** What [client.embeddings.create(...)] does: it returns a response whose
    [data] holds the embeddings, or raises. *)
Inductive create_reply : Type :=
| Response (data : list (list float))
| Failure (e : exc).

(** The embedding provider: its reply to the request number [n] (counted from
    0 over the whole run) for the text [input]. *)
Definition provider : Type := nat -> str -> create_reply.

End IO.

(** ** backend/embedder.py *)

Module Embedder.
Import IO.

Record Embedder : Type :=
  { _model : str;
    _max_retries : nat;
    _retry_delay : float }.

Definition __init__ (settings : Settings) : Embedder :=
  {| _model := embedding_model settings;
     _max_retries := 3;
     _retry_delay := 2.0%float |}.

(** [except (OpenAIError, httpx.HTTPError)] *)
Definition caught (e : exc) : bool :=
  match e with
  | OpenAIError _ | HTTPError _ => true
  | _ => false
  end.

(** An [int] as a [float] operand, as in [self._retry_delay * attempt]. *)
Definition float_of_nat (n : nat) : float :=
  PrimFloat.of_uint63 (Uint63.of_Z (Z.of_nat n)).

(** The body of [for attempt in range(1, self._max_retries + 1)], for the
    attempts that remain; the statement after the loop when none does. *)
Fixpoint attempts (self : Embedder) (client : provider) (text : str)
  (remaining : list nat) (w : trace) : outcome (list float) * trace :=
  match remaining with
  | [] => (Raise (EmbeddingError "Failed to generate embedding" None), w)
  | attempt :: later =>
      let w1 := w ++ [EmbeddingsCreate (_model self) text 30] in
      match client (requests w) text with
      | Response (embedding :: _) => (Return embedding, w1)
      | Response [] => (Raise IndexError, w1)
      | Failure e =>
          if caught e then
            if (_max_retries self <=? attempt)%nat
            then (Raise (EmbeddingError "Failed to generate embedding" (Some e)), w1)
            else attempts self client text later
                   (w1 ++ [Sleep (_retry_delay self * float_of_nat attempt)%float])
          else (Raise e, w1)
      end
  end.

(** [Embedder.embed]. *)
Definition embed (self : Embedder) (client : provider) (text : str) (w : trace)
  : outcome (list float) * trace :=
  match text with
  | [] => (Raise (EmbeddingError "Query text must not be empty" None), w)
  | _ => attempts self client text (seq 1 (_max_retries self)) w
  end.

(** The calls of [k] failed attempts followed by one more request: a request
    and a sleep of [_retry_delay * attempt] for each failed attempt. *)
Definition retry_events (self : Embedder) (text : str) (k : nat) : trace :=
  flat_map (fun attempt =>
              [EmbeddingsCreate (_model self) text 30;
               Sleep (_retry_delay self * float_of_nat attempt)%float])
           (seq 1 k)
    ++ [EmbeddingsCreate (_model self) text 30].

(** What [embed] makes of the reply to its last request. *)
Definition settle (reply : create_reply) : outcome (list float) :=
  match reply with
  | Response (embedding :: _) => Return embedding
  | Response [] => Raise IndexError
  | Failure e =>
      if caught e
      then Raise (EmbeddingError "Failed to generate embedding" (Some e))
      else Raise e
  end.

(** A reply after which the loop tries again, if an attempt is left. *)
Definition retried (reply : create_reply) : bool :=
  match reply with
  | Failure e => caught e
  | Response _ => false
  end.

(** A provider that fails once with a time-out and then raises an exception
    that [embed] does not catch. *)
Definition flaky : provider :=
  fun n _ => match n with
             | O => Failure (HTTPError "timed out")
             | _ => Failure (OtherError "connection reset")
             end.

End Embedder.

(** ** scripts/build_embeddings.py *)

Module BuildEmbeddings.
Import IO.

Record QAPair : Type :=
  { question : str;
    answer : str;
    group_id : Z;
    source : str }.

(** A cell of the data frame that [pd.read_excel] returns. An empty cell is
    the float NaN; [Missing] is [None] (or NaT); [Other] is any object that
    is neither text nor a number, such as a date. *)
Inductive cell : Type :=
| Missing
| Float (f : float)
| Int (z : Z)
| Text (s : str)
| Bool (b : bool)
| Other.

(** [pd.isna(v)] *)
Definition isna (v : cell) : bool :=
  match v with
  | Missing => true
  | Float f => PrimFloat.is_nan f
  | _ => false
  end.

(** What [int(v)] does. *)
Inductive int_result : Type :=
| IntOk (z : Z)
| TypeOrValueError
| OverflowError.

(** [load_qa_pairs] raises [FileNotFoundError], lets the exception of
    [read_excel] or the [OverflowError] of [int] pass, and raises
    [ValueError] with one of six messages, kept here with the row numbers
    and values they print. *)
Inductive load_error : Type :=
| FileNotFound
| ReadFailed (e : exc)
| EmptyQuestion (row : nat)
| MissingAnswer (row : nat)
| ExpectedAnswer (row : nat) (found : cell) (next_row : nat)
| EmptyAnswer (row : nat)
| InvalidGroupId (row next_row : nat) (group_raw : cell)
| NoPairs
| IntOverflow.

(** The errors that are a [ValueError] of [load_qa_pairs] itself. *)
Definition is_ValueError (e : load_error) : bool :=
  match e with
  | FileNotFound | ReadFailed _ | IntOverflow => false
  | _ => true
  end.

(** The row numbers an error message prints. *)
Definition rows_named (e : load_error) : list nat :=
  match e with
  | EmptyQuestion r | MissingAnswer r | EmptyAnswer r => [r]
  | ExpectedAnswer r _ r' | InvalidGroupId r r' _ => [r; r']
  | _ => []
  end.

(** The workbook at [xlsx_path]: absent, unreadable, or a sheet read with
    [header=None], a list of rows with a default integer index. *)
Inductive workbook : Type :=
| Absent
| Unreadable (e : exc)
| Sheet (df : list (list cell)).

(** [df.shape[1]] *)
Definition width (df : list (list cell)) : nat :=
  match df with
  | r :: _ => length r
  | [] => 0
  end.

(** [df.iloc[:, j] if df.shape[1] > j else pd.Series(...)] *)
Definition column (j : nat) (df : list (list cell)) : list cell :=
  if (j <? width df)%nat
  then map (fun r => nth j r (Float nan)) df
  else [].

(** [v.strip() if isinstance(v, str) else ""] *)
Definition stripped (v : cell) : str :=
  match v with
  | Text s => strip s
  | _ => []
  end.

(** [col_b.loc[row_idx] if row_idx in col_b.index else None] *)
Definition group_at (col_b : list cell) (row_idx : nat) : cell :=
  match col_b !! row_idx with
  | Some v => v
  | None => Missing
  end.

(** The value that [int] is applied to for the rows [row_idx], [next_row_idx]. *)
Definition group_raw_of (col_b : list cell) (row_idx next_row_idx : nat) : cell :=
  let group_raw := group_at col_b row_idx in
  if isna group_raw then group_at col_b next_row_idx else group_raw.

Section Extraction.

(** Python's [int] on a [str]: [None] when it raises [ValueError]. *)
Variable int_of_str : str -> option Z.

(** [int(v)]: a float is truncated towards zero. *)
Definition to_int (v : cell) : int_result :=
  match v with
  | Missing | Other => TypeOrValueError
  | Int z => IntOk z
  | Bool b => IntOk (if b then 1 else 0)
  | Text s => match int_of_str s with
              | Some z => IntOk z
              | None => TypeOrValueError
              end
  | Float f =>
      match Prim2SF f with
      | S754_zero _ => IntOk 0
      | S754_finite sign m e => IntOk (cond_Zopp sign (Z.shiftl (Z.pos m) e))
      | S754_infinity _ => OverflowError
      | S754_nan => TypeOrValueError
      end
  end.

(** The two kinds of marked rows, and the text a marked row carries. *)
Definition is_question (v : cell) : bool :=
  startswith (upper (stripped v)) (lit "Q.").
Definition is_answer (v : cell) : bool :=
  startswith (upper (stripped v)) (lit "A.").
Definition body (v : cell) : str := strip (drop 2 (stripped v)).

(** [f"xlsx_row_C{row_idx + 1}_C{next_row_idx + 1}"] *)
Definition source_of (row_idx next_row_idx : nat) : str :=
  lit "xlsx_row_C" ++ decimal (row_idx + 1)
    ++ lit "_C" ++ decimal (next_row_idx + 1).

(** A well-formed alternating sequence of [n] question/answer row pairs:
    the rows [2k] and [2k + 1] are a question row and an answer row with
    non-empty texts, and the group id of the pair resolves to an integer. *)
Definition well_formed (col_b col_c : list cell) (n : nat) : Prop :=
  length col_c = 2 * n
  /\ forall k, k < n ->
       exists q a g,
         col_c !! (2 * k) = Some q /\ col_c !! (2 * k + 1) = Some a
         /\ is_question q = true /\ body q <> []
         /\ is_answer a = true /\ body a <> []
         /\ to_int (group_raw_of col_b (2 * k) (2 * k + 1)) = IntOk g.

(** The record that the rows [2k] and [2k + 1] stand for. *)
Definition record_of (col_b col_c : list cell) (k : nat) (r : QAPair) : Prop :=
  exists q a,
    col_c !! (2 * k) = Some q /\ col_c !! (2 * k + 1) = Some a
    /\ question r = body q /\ question r <> []
    /\ answer r = body a /\ answer r <> []
    /\ to_int (group_raw_of col_b (2 * k) (2 * k + 1)) = IntOk (group_id r)
    /\ source r = source_of (2 * k) (2 * k + 1).


(** The record [r] comes from the question row [j] and the answer row
    [j + 1] of the rows [rest], which start at position [idx] of the sheet. *)
Definition came_from (col_b : list cell) (idx : nat) (rest : list cell)
  (r : QAPair) : Prop :=
  exists j q a,
    rest !! j = Some q /\ rest !! (j + 1) = Some a
    /\ is_question q = true /\ is_answer a = true
    /\ question r = body q /\ answer r = body a
    /\ question r <> [] /\ answer r <> []
    /\ source r = source_of (idx + j) (idx + j + 1)
    /\ to_int (group_raw_of col_b (idx + j) (idx + j + 1)) = IntOk (group_id r).

(** The [while idx < len(row_indices)] loop, on the cells [rest] of column C
    from position [idx] on. The index of the frame is [0, 1, 2, ...], so
    [row_idx] is [idx] and [next_row_idx] is [idx + 1]. *)
Fixpoint scan (col_b : list cell) (idx : nat) (rest : list cell)
  (qa_pairs : list QAPair) : result load_error (list QAPair) :=
  match rest with
  | [] => Ok qa_pairs
  | cell_value :: after =>
      let value := stripped cell_value in
      if startswith (upper value) (lit "Q.") then
        let question := strip (drop 2 value) in
        match question with
        | [] => Err (EmptyQuestion (idx + 1))
        | _ :: _ =>
            match after with
            | [] => Err (MissingAnswer (idx + 1))
            | answer_cell :: after' =>
                let answer_value := stripped answer_cell in
                if negb (startswith (upper answer_value) (lit "A.")) then
                  Err (ExpectedAnswer (idx + 1) answer_cell (idx + 2))
                else
                  let answer := strip (drop 2 answer_value) in
                  match answer with
                  | [] => Err (EmptyAnswer (idx + 2))
                  | _ :: _ =>
                      let group_raw := group_raw_of col_b idx (idx + 1) in
                      match to_int group_raw with
                      | IntOk group_id =>
                          let source :=
                            lit "xlsx_row_C" ++ decimal (idx + 1)
                              ++ lit "_C" ++ decimal (idx + 2) in
                          scan col_b (idx + 2) after'
                            (qa_pairs ++ [{| question := question;
                                             answer := answer;
                                             group_id := group_id;
                                             source := source |}])
                      | TypeOrValueError =>
                          Err (InvalidGroupId (idx + 1) (idx + 2) group_raw)
                      | OverflowError => Err IntOverflow
                      end
                  end
            end
        end
      else scan col_b (idx + 1) after qa_pairs
  end.

(** [load_qa_pairs]. *)
Definition load_qa_pairs (file : workbook) : result load_error (list QAPair) :=
  match file with
  | Absent => Err FileNotFound
  | Unreadable e => Err (ReadFailed e)
  | Sheet df =>
      let col_b := column 1 df in
      let col_c := column 2 df in
      match scan col_b 0 col_c [] with
      | Ok [] => Err NoPairs
      | r => r
      end
  end.

End Extraction.

(** Python's [int] on the texts of plain decimal digits; enough for the
    examples. *)
Definition int_of_digits (s : str) : option Z :=
  match s with
  | [] => None
  | _ :: _ =>
      fold_left (fun acc c =>
                   match acc with
                   | Some z => if ((48 <=? c) && (c <=? 57))%N
                               then Some (10 * z + Z.of_N (c - 48))%Z
                               else None
                   | None => None
                   end) s (Some 0%Z)
  end.

(** A sheet whose only pair has an infinite group id (pandas reads the text
    inf in a numeric column as the float infinity). *)
Definition infinite_group_sheet : list (list cell) :=
  [ [Float nan; Float infinity; Text (lit "Q. What is X?")];
    [Float nan; Int 1; Text (lit "A. X is Y.")] ].

(** Two records with the same question and nothing else in common. *)
Definition first_record : QAPair :=
  {| question := lit "What is X?"; answer := lit "X is Y.";
     group_id := 1; source := lit "xlsx_row_C1_C2" |}.
Definition second_record : QAPair :=
  {| question := lit "What is X?"; answer := lit "X is Z.";
     group_id := 7; source := lit "xlsx_row_C9_C10" |}.

(** A provider that answers every request with the same embedding. *)
Definition steady (embedding : list float) : provider :=
  fun _ _ => Response [embedding].


(** A sheet with answers only, and sheets whose first pair is broken. *)
Definition answers_only_sheet : list (list cell) :=
  [ [Float nan; Int 1; Text (lit "A. X is Y.")];
    [Float nan; Int 1; Text (lit "no marker")];
    [Float nan; Int 1; Int 7] ].
Definition empty_answer_sheet : list (list cell) :=
  [ [Float nan; Int 1; Text (lit "Q. What is X?")];
    [Float nan; Int 1; Text (lit "A.   ")] ].
Definition empty_question_sheet : list (list cell) :=
  [ [Float nan; Int 1; Text (lit "q.")];
    [Float nan; Int 1; Text (lit "A. X is Y.")] ].
Definition text_group_sheet : list (list cell) :=
  [ [Float nan; Text (lit "group A"); Text (lit "Q. What is X?")];
    [Float nan; Int 1; Text (lit "A. X is Y.")] ].

(** A sheet with the same question twice; the group id of the second pair
    stands on its answer row. *)
Definition sample_sheet : list (list cell) :=
  [ [Float nan; Int 1; Text (lit "Q. What is X?")];
    [Float nan; Float nan; Text (lit "A. X is Y.")];
    [Float nan; Float nan; Text (lit "  q. What is X?  ")];
    [Float nan; Float 2%float; Text (lit "a. X is Z.")] ].


(** The payload of a point: a flat mapping of the record's fields. *)
Definition payload_of (qa : QAPair) : gmap string pyval :=
  <["question" := VStr (question qa)]>
    (<["answer" := VStr (answer qa)]>
       (<["source" := VStr (source qa)]>
          (<["group_id" := VInt (group_id qa)]> ∅))).

(** [hashlib.md5(pair.question.encode("utf-8")).hexdigest()] *)
Definition point_id (question : str) : option str :=
  option_map MD5.hexdigest (encode question).

(** What a point built from a record holds. *)
Definition built_from (qa : QAPair) (pt : PointStruct) : Prop :=
  Some (id pt) = option_map MD5.hexdigest (encode (question qa))
  /\ payload pt = payload_of qa.



(** The [for pair in pairs] loop of [build_points], with the list [points]
    built so far. *)
Fixpoint build_loop (embedder : Embedder.Embedder) (client : provider)
  (pairs : list QAPair) (points : list PointStruct) (w : trace)
  : outcome (list PointStruct) * trace :=
  match pairs with
  | [] => (Return points, w)
  | qa :: later =>
      match Embedder.embed embedder client (question qa) w with
      | (Raise e, w1) => (Raise e, w1)
      | (Return embedding, w1) =>
          match point_id (question qa) with
          | None => (Raise UnicodeEncodeError, w1)
          | Some pid =>
              build_loop embedder client later
                (points ++ [{| id := pid;
                               vector := embedding;
                               payload := payload_of qa |}]) w1
          end
      end
  end.

(** [build_points]. *)
Definition build_points (pairs : list QAPair) (embedder : Embedder.Embedder)
  (client : provider) (w : trace) : outcome (list PointStruct) * trace :=
  build_loop embedder client pairs [] w.

(** What the run meets outside the process: the settings it loads, the
    embedding provider, and the replies of the vector index ([None]: the call
    returns, [Some e]: it raises [e]). *)
Record world : Type :=
  { get_settings : outcome Settings;
    openai : provider;
    qdrant_connect : option exc;
    qdrant_get_collection : option exc;
    qdrant_create_collection : option exc;
    qdrant_upsert : list PointStruct -> option exc }.

(** [ensure_collection]. *)
Definition ensure_collection (env : world) (collection_name : str) (w : trace)
  : outcome unit * trace :=
  let w1 := w ++ [GetCollection collection_name] in
  match qdrant_get_collection env with
  | None => (Return tt, w1)
  | Some (UnexpectedResponse _) =>
      let w2 := w1 ++ [CreateCollection collection_name 1536 "Cosine"] in
      match qdrant_create_collection env with
      | None => (Return tt, w2)
      | Some e => (Raise e, w2)
      end
  | Some e => (Raise e, w1)
  end.

(** A world in which every call succeeds. *)
Definition calm : world :=
  {| get_settings := Return local_settings;
     openai := steady [1%float];
     qdrant_connect := None;
     qdrant_get_collection := None;
     qdrant_create_collection := None;
     qdrant_upsert := fun _ => None |}.

Definition one_pair : list (list cell) :=
  [ [Float nan; Int 1; Text (lit "Q. What is X?")];
    [Float nan; Float nan; Text (lit "A. X is Y.")] ].

Section Main.

Variable int_of_str : str -> option Z.

(** [main]: the exit status and the calls made. Both [except] clauses of the
    second [try] return 1. *)
Definition main (env : world) (file : workbook) : Z * trace :=
  match load_qa_pairs int_of_str file with
  | Err _ => (1%Z, [])
  | Ok qa_pairs =>
      match get_settings env with
      | Raise _ => (1%Z, [])
      | Return settings =>
          let embedder := Embedder.__init__ settings in
          match qdrant_connect env with
          | Some _ => (1%Z, [])
          | None =>
              match ensure_collection env (qdrant_collection settings) [] with
              | (Raise _, w1) => (1%Z, w1)
              | (Return _, w1) =>
                  match build_points qa_pairs embedder (openai env) w1 with
                  | (Raise _, w2) => (1%Z, w2)
                  | (Return points, w2) =>
                      match points with
                      | [] => (0%Z, w2)
                      | _ :: _ =>
                          let w3 := w2 ++ [Upsert (qdrant_collection settings) points] in
                          match qdrant_upsert env points with
                          | Some _ => (1%Z, w3)
                          | None => (0%Z, w3)
                          end
                      end
                  end
              end
          end
      end
  end.

End Main.

End BuildEmbeddings.

(** ** backend/main.py *)

Module QueryEndpoint.
Import IO.

(** What the handler of [POST /query] ends with: the dictionary it returns,
    an [HTTPException] it raises, or an exception it does not catch. *)
Inductive reply : Type :=
| OK (result : gmap string pyval)
| HTTPException (status_code : Z) (detail : string)
| Unhandled (e : exc).

(** The vector index as [retriever.search] meets it: its reply to a query
    vector. *)
Definition index : Type := list float -> Retriever.search_reply.

(** The reply, the calls to the embedding provider, and the vectors that were
    searched for. *)
Record run : Type :=
  { response : reply;
    calls : trace;
    searches : list (list float) }.

(** [query_endpoint]. The result of [search] is always a dictionary, so the
    test [isinstance(result, dict)] holds. *)
Definition query_endpoint (embedder : Embedder.Embedder)
  (retriever : Retriever.Retriever) (client : provider) (qdrant : index)
  (query : str) (w : trace) : run :=
  match Embedder.embed embedder client query w with
  | (Raise (EmbeddingError _ _), w1) =>
      {| response := HTTPException 503 "Embedding service unavailable";
         calls := w1; searches := [] |}
  | (Raise e, w1) => {| response := Unhandled e; calls := w1; searches := [] |}
  | (Return embedding, w1) =>
      match Retriever.search retriever (qdrant embedding) with
      | Raise (RetrievalError _ _) =>
          {| response := HTTPException 503 "Vector search unavailable";
             calls := w1; searches := [embedding] |}
      | Raise e =>
          {| response := Unhandled e; calls := w1; searches := [embedding] |}
      | Return result =>
          {| response := OK result; calls := w1; searches := [embedding] |}
      end
  end.

(** A provider that is down, and an index without points. *)
Definition down : provider := fun _ _ => Failure (OpenAIError "unavailable").
Definition empty_index : index := fun _ => Retriever.Hits [].

End QueryEndpoint.

(** ** frontend/app.py *)

Module Frontend.

(** What the server answers to [requests.post]: nothing (the request
    fails), or a status and a body that is not JSON, a JSON object, or
    another JSON value. *)
Inductive body : Type :=
| NotJson
| JsonObject (fields : gmap string pyval)
| JsonOther (v : pyval).

Inductive http_response : Type :=
| NoResponse
| Replied (status_code : Z) (content : body).

Inductive post_error : Type :=
| HTTPError (status_code : Z)
| RequestException
| NotParsed
| NotAnObject.

(** [post_query]: [raise_for_status] raises for the status codes from 400 to
    599. *)
Definition post_query (server : str -> http_response) (query : str)
  : result post_error (gmap string pyval) :=
  match server query with
  | NoResponse => Err RequestException
  | Replied status_code content =>
      if ((400 <=? status_code) && (status_code <? 600))%Z
      then Err (HTTPError status_code)
      else match content with
           | NotJson => Err NotParsed
           | JsonOther _ => Err NotAnObject
           | JsonObject fields => Ok fields
           end
  end.

(** An entry of [st.session_state.messages]. *)
Record message : Type := { role : string; content : str }.

(** What the page shows. *)
Inductive shown : Type :=
| ChatMessage (role : string) (text : str)
| WarnEmptyQuestion
| WarnNoAnswer
| ErrorShown (e : post_error).

(** The state after [handle_submission]: the messages, what was shown, the
    queries posted to the backend, and whether the function ended with an
    exception ([payload.get("answer", "").strip()] raises one when the answer
    is not a text). *)
Record page : Type :=
  { messages : list message;
    display : list shown;
    posted : list str;
    raised : bool }.

(** [handle_submission]. *)
Definition handle_submission (server : str -> http_response)
  (user_query : option str) (history : list message) : page :=
  match user_query with
  | None => {| messages := history; display := []; posted := [];
               raised := false |}
  | Some user_query =>
      let cleaned_query := strip user_query in
      match cleaned_query with
      | [] => {| messages := history; display := [WarnEmptyQuestion];
                 posted := []; raised := false |}
      | _ :: _ =>
          let history1 :=
            history ++ [{| role := "user"; content := cleaned_query |}] in
          let display1 := [ChatMessage "user" cleaned_query] in
          match post_query server cleaned_query with
          | Err e => {| messages := history1;
                        display := display1 ++ [ErrorShown e];
                        posted := [cleaned_query]; raised := false |}
          | Ok payload =>
              match match payload !! "answer" with
                    | Some v => v
                    | None => VStr []
                    end with
              | VStr text =>
                  match strip text with
                  | [] => {| messages := history1;
                             display := display1 ++ [WarnNoAnswer];
                             posted := [cleaned_query]; raised := false |}
                  | answer =>
                      {| messages :=
                           history1 ++ [{| role := "assistant";
                                           content := answer |}];
                         display := display1 ++ [ChatMessage "assistant" answer];
                         posted := [cleaned_query]; raised := false |}
                  end
              | _ => {| messages := history1; display := display1;
                        posted := [cleaned_query]; raised := true |}
              end
          end
      end
  end.

(** A server that answers every query with the same fields. *)
Definition answering (fields : gmap string pyval) : str -> http_response :=
  fun _ => Replied 200 (JsonObject fields).

End Frontend.

(** * Properties *)

(** ** Sanity checks of the embedding of the library functions *)

Module Sanity.

Example md5_empty : MD5.hexdigest [] = lit "d41d8cd98f00b204e9800998ecf8427e".
Proof. vm_compute. reflexivity. Qed.

Example md5_abc :
  option_map MD5.hexdigest (encode (lit "abc"))
  = Some (lit "900150983cd24fb0d6963f7d28e17f72").
Proof. vm_compute. reflexivity. Qed.

Example md5_hangul :
  option_map MD5.hexdigest (encode [0xAC80; 0xC0C9]%N)
  = Some (lit "ab457137f40f2b09bd2128d93e7a9bcf").
Proof. vm_compute. reflexivity. Qed.

Example no_results_text :
  encode Retriever.NO_RESULTS
  = Some (String.list_byte_of_string "검색 결과가 없습니다.").
Proof. vm_compute. reflexivity. Qed.

Example low_confidence_text :
  encode Retriever.LOW_CONFIDENCE
  = Some (String.list_byte_of_string "⚠️ 신뢰도 낮음(score<threshold)").
Proof. vm_compute. reflexivity. Qed.

Example strip_example :
  strip (lit "  Q. What is X?  ") = lit "Q. What is X?".
Proof. reflexivity. Qed.

Example int_truncates :
  BuildEmbeddings.to_int BuildEmbeddings.int_of_digits
    (BuildEmbeddings.Float (-3.75)%float) = BuildEmbeddings.IntOk (-3)
  /\ BuildEmbeddings.to_int BuildEmbeddings.int_of_digits
       (BuildEmbeddings.Float 2.5%float) = BuildEmbeddings.IntOk 2
  /\ BuildEmbeddings.to_int BuildEmbeddings.int_of_digits
       (BuildEmbeddings.Text (lit "12")) = BuildEmbeddings.IntOk 12
  /\ BuildEmbeddings.to_int BuildEmbeddings.int_of_digits
       (BuildEmbeddings.Float nan) = BuildEmbeddings.TypeOrValueError.
Proof. repeat split. Qed.

Example ideographic_space_is_stripped :
  strip ([0x3000; 0x51; 0x2E; 0xA0]%N) = [0x51; 0x2E]%N.
Proof. reflexivity. Qed.

End Sanity.

(** ** Retriever *)

Module RetrieverSpec.
Import Retriever.

(** Comparison of binary64 numbers is antisymmetric where it is defined. *)
Lemma SFcompare_swap (x y : spec_float) :
  SFcompare y x = option_map CompOpp (SFcompare x y).
Proof.
  destruct x as [sx|sx| |sx mx ex], y as [sy|sy| |sy my ey]; simpl;
    try reflexivity; try (destruct sx; reflexivity);
    try (destruct sy; reflexivity);
    try (destruct sx, sy; reflexivity).
  pose proof (Pos.compare_antisym mx my) as Hm. unfold Pos.compare in Hm.
  destruct sx, sy; simpl; try reflexivity;
    rewrite (Z.compare_antisym ex ey);
    destruct (ex ?= ey)%Z; simpl; try reflexivity;
    rewrite Hm; destruct (Pos.compare_cont Eq mx my); reflexivity.
Qed.

(** [threshold <= s] excludes [s < threshold]. *)
Lemma leb_excludes_ltb (t s : float) :
  (t <=? s)%float = true -> (s <? t)%float = false.
Proof.
  rewrite FloatAxioms.leb_spec, FloatAxioms.ltb_spec. unfold SFleb, SFltb.
  rewrite (SFcompare_swap (Prim2SF t) (Prim2SF s)).
  destruct (SFcompare (Prim2SF t) (Prim2SF s)) as [[ | | ]|]; simpl; congruence.
Qed.

Lemma copy_key_other (key k : string) (p r : gmap string pyval) :
  key <> k -> copy_key key p r !! k = r !! k.
Proof.
  intros Hne. unfold copy_key.
  destruct (p !! key); [apply lookup_insert_ne; exact Hne | reflexivity].
Qed.

Lemma or_truthy (a : pyval) : truthy (or_ a (VStr NO_RESULTS)) = true.
Proof. unfold or_. destruct (truthy a) eqn:E; [exact E | reflexivity]. Qed.

(** The answer of a decision made from at least one hit. *)
Lemma decide_hits_answer (self : Retriever) (h : ScoredPoint) (rest : list ScoredPoint) :
  decide_hits self (h :: rest) !! "answer"
  = Some (or_ (top_answer h) (VStr NO_RESULTS)).
Proof.
  unfold decide_hits, top_answer.
  destruct (low_confidence self h);
    [rewrite lookup_insert_ne by discriminate|];
    rewrite !copy_key_other by discriminate;
    rewrite lookup_insert_eq; destruct (payload h); reflexivity.
Qed.

(** The warning of a decision made from at least one hit. *)
Lemma decide_hits_warning (self : Retriever) (h : ScoredPoint) (rest : list ScoredPoint) :
  decide_hits self (h :: rest) !! "warning"
  = if low_confidence self h then Some (VStr LOW_CONFIDENCE) else None.
Proof.
  unfold decide_hits.
  destruct (low_confidence self h).
  - apply lookup_insert_eq.
  - rewrite !copy_key_other by discriminate.
    rewrite !lookup_insert_ne by discriminate. apply lookup_empty.
Qed.

(** C1. With at least one hit, [search] decides from the top hit alone. The
    answer is populated whatever the score is. A score that is present and
    at least the threshold gives no warning field; an absent score, or one
    strictly below the threshold, gives the low-confidence warning. With the
    default threshold 0.82, the score 0.90 gives no warning and the score
    0.70 gives the same answer with the warning. *)
Theorem search_confidence_gate
  (self : Retriever) (top_hit : ScoredPoint) (rest : list ScoredPoint) :
  exists response : gmap string pyval,
    search self (Hits (top_hit :: rest)) = Return response
    /\ search self (Hits [top_hit]) = Return response
    /\ (exists a, response !! "answer" = Some a
                  /\ truthy a = true
                  /\ a = or_ (top_answer top_hit) (VStr NO_RESULTS))
    /\ (forall s, score top_hit = Some s ->
                  (_threshold self <=? s)%float = true ->
                  response !! "warning" = None)
    /\ (score top_hit = None ->
        response !! "warning" = Some (VStr LOW_CONFIDENCE))
    /\ (forall s, score top_hit = Some s ->
                  (s <? _threshold self)%float = true ->
                  response !! "warning" = Some (VStr LOW_CONFIDENCE))
    /\ (forall collection top_k p,
          let r := __init__ collection 0.82%float top_k in
          let high := decide_hits r [{| score := Some 0.90%float; payload := p |}] in
          let low := decide_hits r [{| score := Some 0.70%float; payload := p |}] in
          high !! "warning" = None
          /\ low !! "warning" = Some (VStr LOW_CONFIDENCE)
          /\ low !! "answer" = high !! "answer").
Proof.
  exists (decide_hits self (top_hit :: rest)).
  split; [reflexivity|]. split; [reflexivity|].
  split.
  { eexists. split; [apply decide_hits_answer|].
    split; [apply or_truthy | reflexivity]. }
  split.
  { intros s Hs Hge. rewrite decide_hits_warning. unfold low_confidence.
    rewrite Hs, (leb_excludes_ltb _ _ Hge). reflexivity. }
  split.
  { intros Hs. rewrite decide_hits_warning. unfold low_confidence.
    rewrite Hs. reflexivity. }
  split.
  { intros s Hs Hlt. rewrite decide_hits_warning. unfold low_confidence.
    rewrite Hs, Hlt. reflexivity. }
  intros collection top_k p r high low. subst high low.
  rewrite !decide_hits_warning, !decide_hits_answer.
  repeat split.
Qed.

(** C5. With no hit, [search] returns the fixed text "검색 결과가 없습니다." as
    the answer, [None] as the score, and the low-confidence warning. *)
Theorem search_no_hits (self : Retriever) :
  exists response : gmap string pyval,
    search self (Hits []) = Return response
    /\ response !! "answer" = Some (VStr NO_RESULTS)
    /\ response !! "score" = Some VNone
    /\ response !! "warning" = Some (VStr LOW_CONFIDENCE)
    /\ encode NO_RESULTS
       = Some (String.list_byte_of_string "검색 결과가 없습니다.").
Proof.
  exists (decide_hits self []). repeat split.
Qed.

(** C10, as stated, fails: a payload whose answer is the number 42 comes back
    as the number 42, which is not a string. *)
Lemma answer_may_not_be_a_string :
  ~ (forall (self : Retriever) (hits : list ScoredPoint) (response : gmap string pyval),
        search self (Hits hits) = Return response ->
        exists s, response !! "answer" = Some (VStr s) /\ s <> []).
Proof.
  intros H.
  destruct (H (__init__ "qa" 0.82%float 5)
              [{| score := Some 0.90%float;
                  payload := Some (<["answer" := VInt 42]> ∅) |}]
              _ eq_refl) as (s & Hs & _).
  rewrite decide_hits_answer in Hs. discriminate Hs.
Qed.

(** C10, amended. The answer of every result is a true value, never empty
    and never [None]: it is the fixed text when there is no hit, when the
    top hit has no payload or no answer key, and when the answer of the
    payload is false (empty or [None]); otherwise it is the answer of the
    payload, unchanged. It is a non-empty string whenever the answer of the
    payload is a string or false. *)
Theorem search_answer_populated (self : Retriever) (hits : list ScoredPoint) :
  exists (response : gmap string pyval) (a : pyval),
    search self (Hits hits) = Return response
    /\ response !! "answer" = Some a
    /\ truthy a = true
    /\ match hits with
       | [] => a = VStr NO_RESULTS
       | top_hit :: _ =>
           (truthy (top_answer top_hit) = false -> a = VStr NO_RESULTS)
           /\ (truthy (top_answer top_hit) = true -> a = top_answer top_hit)
           /\ (is_str (top_answer top_hit) = true
               \/ truthy (top_answer top_hit) = false ->
               exists s, a = VStr s /\ s <> [])
       end.
Proof.
  destruct hits as [|top_hit rest].
  - exists (decide_hits self []), (VStr NO_RESULTS). repeat split.
  - exists (decide_hits self (top_hit :: rest)),
      (or_ (top_answer top_hit) (VStr NO_RESULTS)).
    split; [reflexivity|]. split; [apply decide_hits_answer|].
    split; [apply or_truthy|].
    unfold or_.
    destruct (truthy (top_answer top_hit)) eqn:T.
    + split; [discriminate|]. split; [reflexivity|].
      intros [Hs|Hf]; [|discriminate].
      destruct (top_answer top_hit) as [ | | | |s| | ]; try discriminate Hs.
      exists s. split; [reflexivity|]. intros ->. discriminate T.
    + split; [reflexivity|]. split; [discriminate|].
      intros _. exists NO_RESULTS. split; [reflexivity|discriminate].
Qed.

End RetrieverSpec.

(** ** Embedder *)

Module EmbedderSpec.
Import IO Embedder.

Lemma requests_create (w : trace) (model input : str) (timeout : Z) :
  requests (w ++ [EmbeddingsCreate model input timeout]) = S (requests w).
Proof.
  unfold requests. rewrite List.filter_app, List.length_app. simpl. lia.
Qed.

Lemma requests_sleep (w : trace) (seconds : float) :
  requests (w ++ [Sleep seconds]) = requests w.
Proof.
  unfold requests. rewrite List.filter_app, List.length_app. simpl. lia.
Qed.

(** C9. [embed] on the empty text raises [EmbeddingError] at once: the trace
    of calls is returned unchanged, so no request reaches the provider. *)
Theorem embed_empty_text (self : Embedder) (client : provider) (w : trace) :
  embed self client [] w
  = (Raise (EmbeddingError "Query text must not be empty" None), w)
  /\ requests (snd (embed self client [] w)) = requests w.
Proof. split; reflexivity. Qed.

Lemma requests_retry_events (self : Embedder) (text : str) (k : nat) :
  requests (retry_events self text k) = S k.
Proof.
  unfold retry_events, requests. generalize 1%nat as a.
  induction k as [|k IH]; intros a.
  - reflexivity.
  - simpl. f_equal. apply IH.
Qed.

(** One failed attempt that is not the last: the loop goes on after a sleep. *)
Lemma attempts_retry (self : Embedder) (client : provider) (text : str)
  (attempt : nat) (later : list nat) (w : trace) (e : exc) :
  client (requests w) text = Failure e ->
  caught e = true ->
  (_max_retries self <=? attempt)%nat = false ->
  attempts self client text (attempt :: later) w
  = attempts self client text later
      (w ++ [EmbeddingsCreate (_model self) text 30]
         ++ [Sleep (_retry_delay self * float_of_nat attempt)%float]).
Proof.
  intros Hc He Hn. cbn [attempts]. rewrite Hc, He, Hn.
  rewrite <- app_assoc. reflexivity.
Qed.

(** C4. For a non-empty text and the embedder that [__init__] builds: when
    the provider fails with a caught error on each of three requests in a
    row, [embed] makes exactly these three requests, sleeps 2 and then 4
    between them, and raises [EmbeddingError] whose cause is the third
    failure; when a request succeeds after [k < 3] failures, its vector is
    returned and no request follows (k + 1 requests in all). *)
Theorem embed_retry_policy
  (settings : Settings) (client : provider) (text : str) (w : trace) :
  text <> [] ->
  let self := __init__ settings in
  let create := EmbeddingsCreate (_model self) text 30 in
  (forall e1 e2 e3,
      client (requests w) text = Failure e1 -> caught e1 = true ->
      client (requests w + 1) text = Failure e2 -> caught e2 = true ->
      client (requests w + 2) text = Failure e3 -> caught e3 = true ->
      embed self client text w
      = (Raise (EmbeddingError "Failed to generate embedding" (Some e3)),
         w ++ [create; Sleep 2%float; create; Sleep 4%float; create]))
  /\ (forall k v more,
         k < 3 ->
         (forall j, j < k ->
                    exists e, client (requests w + j) text = Failure e
                              /\ caught e = true) ->
         client (requests w + k) text = Response (v :: more) ->
         embed self client text w = (Return v, w ++ retry_events self text k)
         /\ requests (w ++ retry_events self text k) = requests w + (k + 1)).
Proof.
  intros Htext self create.
  assert (Hembed : embed self client text w
                   = attempts self client text [1; 2; 3] w).
  { destruct text; [contradiction|reflexivity]. }
  rewrite Hembed. split.
  - intros e1 e2 e3 H1 C1 H2 C2 H3 C3.
    rewrite (attempts_retry self client text 1 _ w e1 H1 C1 eq_refl).
    rewrite (attempts_retry self client text 2 _ _ e2); [| |exact C2|reflexivity].
    2:{ rewrite app_assoc, requests_sleep, requests_create.
        rewrite <- H2. f_equal. lia. }
    cbn [attempts].
    replace (requests _) with (requests w + 2).
    2:{ rewrite !app_assoc, requests_sleep, requests_create,
          requests_sleep, requests_create. lia. }
    rewrite H3, C3. cbn.
    rewrite <- !app_assoc. reflexivity.
  - intros k v more Hk Hfail Hok.
    split.
    2:{ unfold requests. rewrite List.filter_app, List.length_app.
        fold (requests w). fold (requests (retry_events self text k)).
        rewrite requests_retry_events. lia. }
    destruct k as [|[|[|k]]]; [| | |lia].
    + rewrite Nat.add_0_r in Hok. cbn [attempts]. rewrite Hok. reflexivity.
    + destruct (Hfail 0) as (e1 & H1 & C1); [lia|].
      rewrite Nat.add_0_r in H1.
      rewrite (attempts_retry self client text 1 _ w e1 H1 C1 eq_refl).
      cbn [attempts].
      replace (requests _) with (requests w + 1).
      2:{ rewrite app_assoc, requests_sleep, requests_create. lia. }
      rewrite Hok. unfold retry_events. cbn. rewrite <- !app_assoc. reflexivity.
    + destruct (Hfail 0) as (e1 & H1 & C1); [lia|].
      destruct (Hfail 1) as (e2 & H2 & C2); [lia|].
      rewrite Nat.add_0_r in H1.
      rewrite (attempts_retry self client text 1 _ w e1 H1 C1 eq_refl).
      rewrite (attempts_retry self client text 2 _ _ e2); [| |exact C2|reflexivity].
      2:{ rewrite app_assoc, requests_sleep, requests_create.
          rewrite <- H2. f_equal. lia. }
      cbn [attempts].
      replace (requests _) with (requests w + 2).
      2:{ rewrite !app_assoc, requests_sleep, requests_create,
            requests_sleep, requests_create. lia. }
      rewrite Hok. unfold retry_events. cbn. rewrite <- !app_assoc. reflexivity.
Qed.

(** The policy at work: a provider that is down for every request. *)
Lemma embed_retry_policy_witness :
  let create := EmbeddingsCreate default_embedding_model (lit "hi") 30 in
  embed (__init__ local_settings)
        (fun _ _ => Failure (OpenAIError "unavailable")) (lit "hi") []
  = (Raise (EmbeddingError "Failed to generate embedding"
              (Some (OpenAIError "unavailable"))),
     [create; Sleep 2%float; create; Sleep 4%float; create]).
Proof.
  assert (H : lit "hi" <> []) by discriminate.
  exact (proj1 (embed_retry_policy local_settings
                  (fun _ _ => Failure (OpenAIError "unavailable"))
                  (lit "hi") [] H)
               _ _ _ eq_refl eq_refl eq_refl eq_refl eq_refl eq_refl).
Defined.

End EmbedderSpec.

(** ** Record extraction, point building and the ingestion run *)

Module BuildEmbeddingsSpec.
Import IO BuildEmbeddings.

Section Scan.

Variable int_of_str : str -> option Z.
Variable col_b : list cell.

(** A row that is not a question row is passed over. *)
Lemma scan_skip (idx : nat) (c : cell) (rest : list cell) (acc : list QAPair) :
  is_question c = false ->
  scan int_of_str col_b idx (c :: rest) acc
  = scan int_of_str col_b (idx + 1) rest acc.
Proof.
  unfold is_question. intros H. cbn [scan]. rewrite H. reflexivity.
Qed.

(** A valid pair of rows adds one record and moves the cursor by two. *)
Lemma scan_pair (idx : nat) (q a : cell) (rest : list cell)
  (acc : list QAPair) (g : Z) :
  is_question q = true -> body q <> [] ->
  is_answer a = true -> body a <> [] ->
  to_int int_of_str (group_raw_of col_b idx (idx + 1)) = IntOk g ->
  scan int_of_str col_b idx (q :: a :: rest) acc
  = scan int_of_str col_b (idx + 2) rest
      (acc ++ [{| question := body q; answer := body a; group_id := g;
                  source := source_of idx (idx + 1) |}]).
Proof.
  unfold is_question, is_answer, body, source_of.
  intros Hq Hbq Ha Hba Hg. cbn [scan]. rewrite Hq, Ha. cbn [negb].
  destruct (strip (drop 2 (stripped q))) as [|c0 l0]; [contradiction|].
  destruct (strip (drop 2 (stripped a))) as [|c1 l1]; [contradiction|].
  rewrite Hg. replace (idx + 1 + 1) with (idx + 2) by lia. reflexivity.
Qed.

(** The scan of [n] valid pairs of rows. *)
Lemma scan_well_formed (n : nat) :
  forall (rest : list cell) (idx : nat) (acc : list QAPair),
    length rest = 2 * n ->
    (forall k, k < n ->
       exists q a g,
         rest !! (2 * k) = Some q /\ rest !! (2 * k + 1) = Some a
         /\ is_question q = true /\ body q <> []
         /\ is_answer a = true /\ body a <> []
         /\ to_int int_of_str
              (group_raw_of col_b (idx + 2 * k) (idx + 2 * k + 1)) = IntOk g) ->
    exists new,
      scan int_of_str col_b idx rest acc = Ok (acc ++ new)
      /\ length new = n
      /\ forall k, k < n ->
           exists r q a,
             new !! k = Some r
             /\ rest !! (2 * k) = Some q /\ rest !! (2 * k + 1) = Some a
             /\ question r = body q /\ answer r = body a
             /\ to_int int_of_str
                  (group_raw_of col_b (idx + 2 * k) (idx + 2 * k + 1))
                = IntOk (group_id r)
             /\ source r = source_of (idx + 2 * k) (idx + 2 * k + 1).
Proof.
  induction n as [|n IH]; intros rest idx acc Hlen Hrows.
  - destruct rest; [|discriminate Hlen].
    exists []. rewrite app_nil_r. split; [reflexivity|].
    split; [reflexivity|]. intros k Hk. lia.
  - destruct (Hrows 0) as (q & a & g & Hq & Ha & Hiq & Hbq & Hia & Hba & Hg);
      [lia|].
    destruct rest as [|q' [|a' rest']]; try discriminate.
    cbn in Hq, Ha. injection Hq as ->. injection Ha as ->.
    replace (idx + 2 * 0) with idx in Hg by lia.
    rewrite (scan_pair idx q a rest' acc g Hiq Hbq Hia Hba Hg).
    destruct (IH rest' (idx + 2)
                (acc ++ [{| question := body q; answer := body a;
                            group_id := g;
                            source := source_of idx (idx + 1) |}]))
      as (new & Hscan & Hnew & Hrec).
    { cbn in Hlen. lia. }
    { intros k Hk.
      destruct (Hrows (S k)) as (q1 & a1 & g1 & H1 & H2 & H3); [lia|].
      exists q1, a1, g1.
      replace (2 * S k) with (S (S (2 * k))) in H1, H2, H3 by lia.
      cbn in H1, H2. split; [exact H1|]. split; [exact H2|].
      replace (idx + 2 + 2 * k) with (idx + S (S (2 * k))) by lia.
      exact H3. }
    eexists (_ :: new). rewrite Hscan, <- app_assoc.
    split; [reflexivity|]. split; [cbn; lia|].
    intros [|k] Hk.
    + eexists _, q, a.
      replace (idx + 2 * 0) with idx by lia.
      repeat split; try reflexivity. exact Hg.
    + destruct (Hrec k) as (r & q1 & a1 & E1 & E2 & E3 & E4); [lia|].
      exists r, q1, a1.
      replace (2 * S k) with (S (S (2 * k))) by lia.
      split; [exact E1|]. split; [exact E2|]. split; [exact E3|].
      replace (idx + S (S (2 * k))) with (idx + 2 + 2 * k) by lia.
      exact E4.
Qed.


(** The scan of rows that end where a scan without error ends goes on with
    the rows that follow. *)
Lemma scan_app (post : list cell) (n : nat) :
  forall (pre : list cell) (idx : nat) (acc acc' : list QAPair),
    length pre <= n ->
    scan int_of_str col_b idx pre acc = Ok acc' ->
    scan int_of_str col_b idx (pre ++ post) acc
    = scan int_of_str col_b (idx + length pre) post acc'.
Proof.
  induction n as [|n IH]; intros pre idx acc acc' Hlen Hscan.
  - destruct pre; [|cbn in Hlen; lia].
    cbn in Hscan. injection Hscan as ->.
    cbn [app length]. rewrite Nat.add_0_r. reflexivity.
  - destruct pre as [|c after].
    + cbn in Hscan. injection Hscan as ->.
      cbn [app length]. rewrite Nat.add_0_r. reflexivity.
    + destruct (is_question c) eqn:Hq.
      * cbn [scan app] in Hscan |- *. unfold is_question in Hq.
        rewrite Hq in Hscan |- *.
        destruct (strip (drop 2 (stripped c))) as [|c0 l0]; [discriminate|].
        destruct after as [|a after']; [discriminate|]. cbn [app].
        destruct (negb (startswith (upper (stripped a)) (lit "A.")));
          [discriminate|].
        destruct (strip (drop 2 (stripped a))) as [|c1 l1]; [discriminate|].
        destruct (to_int int_of_str (group_raw_of col_b idx (idx + 1)));
          try discriminate.
        rewrite (IH after' (idx + 2) _ acc'); [|cbn in Hlen; lia|exact Hscan].
        f_equal. cbn [length]. lia.
      * rewrite <- app_comm_cons. rewrite scan_skip in Hscan |- * by exact Hq.
        rewrite (IH after (idx + 1) acc acc'); [|cbn in Hlen; lia|exact Hscan].
        f_equal. cbn [length]. lia.
Qed.



End Scan.




(** C7. The group id of a matched pair is read at the question row, and at
    the answer row only when the first value is missing. An infinite value
    is not missing and has no integer conversion, but [int] raises
    [OverflowError] for it, which [except (TypeError, ValueError)] does not
    catch: the error that leaves [load_qa_pairs] is not the [ValueError] that
    names the two rows. *)
Theorem infinite_group_id_escapes (int_of_str : str -> option Z) :
  isna (Float infinity) = false
  /\ group_raw_of (column 1 infinite_group_sheet) 0 1 = Float infinity
  /\ to_int int_of_str (Float infinity) = OverflowError
  /\ load_qa_pairs int_of_str (Sheet infinite_group_sheet) = Err IntOverflow
  /\ is_ValueError IntOverflow = false
  /\ rows_named IntOverflow = [].
Proof. repeat split. Qed.

(** The group id of a matched pair in the other cases: the value chosen is
    the one of the question row unless it is missing, a value that [int]
    rejects gives the [ValueError] that names both rows, and otherwise the
    record holds the integer. *)
Lemma group_id_resolution (int_of_str : str -> option Z) (col_b : list cell)
  (idx : nat) (q a : cell) (rest : list cell) (acc : list QAPair) :
  is_question q = true -> body q <> [] ->
  is_answer a = true -> body a <> [] ->
  let chosen := if isna (group_at col_b idx)
                then group_at col_b (idx + 1) else group_at col_b idx in
  scan int_of_str col_b idx (q :: a :: rest) acc
  = match to_int int_of_str chosen with
    | IntOk g =>
        scan int_of_str col_b (idx + 2) rest
          (acc ++ [{| question := body q; answer := body a; group_id := g;
                      source := source_of idx (idx + 1) |}])
    | TypeOrValueError => Err (InvalidGroupId (idx + 1) (idx + 2) chosen)
    | OverflowError => Err IntOverflow
    end.
Proof.
  intros Hq Hbq Ha Hba chosen.
  destruct (to_int int_of_str chosen) as [g| | ] eqn:Hg.
  - apply scan_pair; assumption.
  - unfold is_question, is_answer, body in *. cbn [scan].
    rewrite Hq, Ha. cbn [negb].
    destruct (strip (drop 2 (stripped q))); [contradiction|].
    destruct (strip (drop 2 (stripped a))); [contradiction|].
    fold chosen. unfold group_raw_of. fold chosen. rewrite Hg. reflexivity.
  - unfold is_question, is_answer, body in *. cbn [scan].
    rewrite Hq, Ha. cbn [negb].
    destruct (strip (drop 2 (stripped q))); [contradiction|].
    destruct (strip (drop 2 (stripped a))); [contradiction|].
    unfold group_raw_of. fold chosen. rewrite Hg. reflexivity.
Qed.

(** C2, as stated, fails on the table without rows: it is an alternating
    sequence of zero pairs, and [load_qa_pairs] raises instead of returning
    zero records. *)
Lemma no_rows_no_records :
  ~ (forall int_of_str df n,
        well_formed int_of_str (column 1 df) (column 2 df) n ->
        exists records,
          load_qa_pairs int_of_str (Sheet df) = Ok records
          /\ length records = n).
Proof.
  intros H.
  destruct (H (fun _ => None) [] 0) as (records & Hload & _).
  - split; [reflexivity|]. intros k Hk. lia.
  - discriminate Hload.
Qed.

(** C2, amended. A well-formed alternating sequence of [n >= 1] pairs of rows
    gives exactly [n = rows / 2] records, in the order of the rows and
    without merging equal ones: the record number [k] has the non-empty
    texts of the rows [2k] and [2k + 1], their group id, and the source
    "xlsx_row_C<2k+1>_C<2k+2>". *)
Theorem load_well_formed (int_of_str : str -> option Z)
  (df : list (list cell)) (n : nat) :
  let col_b := column 1 df in
  let col_c := column 2 df in
  well_formed int_of_str col_b col_c n ->
  n <> 0 ->
  exists records,
    load_qa_pairs int_of_str (Sheet df) = Ok records
    /\ length records = n
    /\ length records = length col_c / 2
    /\ forall k, k < n ->
         exists r, records !! k = Some r
                   /\ record_of int_of_str col_b col_c k r.
Proof.
  intros col_b col_c [Hlen Hrows] Hn.
  destruct (scan_well_formed int_of_str col_b n col_c 0 [] Hlen)
    as (new & Hscan & Hnew & Hrec).
  { intros k Hk. destruct (Hrows k Hk) as (q & a & g & H). exists q, a, g.
    exact H. }
  exists new. cbn [load_qa_pairs]. fold col_b col_c.
  rewrite Hscan. cbn [app].
  split. { destruct new; [cbn in Hnew; lia | reflexivity]. }
  split; [exact Hnew|].
  split. { rewrite Hnew, Hlen. symmetry. rewrite Nat.mul_comm. apply Nat.div_mul. lia. }
  intros k Hk.
  destruct (Hrec k Hk) as (r & q & a & E1 & E2 & E3 & E4 & E5 & E6 & E7).
  destruct (Hrows k Hk) as (q' & a' & g' & F1 & F2 & _ & Fq & _ & Fa & _).
  exists r. split; [exact E1|].
  exists q, a. cbn in E6, E7.
  rewrite E2 in F1. injection F1 as <-. rewrite E3 in F2. injection F2 as <-.
  repeat split; try assumption; congruence.
Qed.

(** The sample sheet: two pairs with the same question give two records. *)
Lemma load_well_formed_witness :
  exists records,
    load_qa_pairs int_of_digits (Sheet sample_sheet) = Ok records
    /\ length records = 2
    /\ length records = length (column 2 sample_sheet) / 2
    /\ forall k, k < 2 ->
         exists r, records !! k = Some r
                   /\ record_of int_of_digits (column 1 sample_sheet)
                        (column 2 sample_sheet) k r.
Proof.
  apply (load_well_formed int_of_digits sample_sheet 2); [|lia].
  split; [reflexivity|].
  intros [|[|k]] Hk; [| |lia].
  - exists (Text (lit "Q. What is X?")), (Text (lit "A. X is Y.")), 1%Z.
    repeat split; try reflexivity; intros H; vm_compute in H; discriminate H.
  - exists (Text (lit "  q. What is X?  ")), (Text (lit "a. X is Z.")), 2%Z.
    repeat split; try reflexivity; intros H; vm_compute in H; discriminate H.
Defined.

(** The points the loop adds, one for each record, in order. *)
Lemma build_loop_points (embedder : Embedder.Embedder) (client : provider) :
  forall (pairs : list QAPair) (acc : list PointStruct) (w : trace)
         (points : list PointStruct) (w' : trace),
    build_loop embedder client pairs acc w = (Return points, w') ->
    exists new, points = acc ++ new /\ Forall2 built_from pairs new.
Proof.
  induction pairs as [|qa later IH]; intros acc w points w' H.
  - cbn in H. injection H as <- _. exists []. rewrite app_nil_r.
    split; [reflexivity|constructor].
  - cbn [build_loop] in H.
    destruct (Embedder.embed embedder client (question qa) w)
      as [[embedding|e] w1]; [|discriminate H].
    destruct (point_id (question qa)) as [pid|] eqn:Hid; [|discriminate H].
    destruct (IH _ _ _ _ H) as (new & -> & Hnew).
    eexists (_ :: new). rewrite <- app_assoc. split; [reflexivity|].
    constructor; [|exact Hnew].
    split; [symmetry; exact Hid|reflexivity].
Qed.

(** C3. The id of every point that [build_points] builds is the hexadecimal
    MD5 digest of the UTF-8 text of the question of its record, and of
    nothing else: two records with the same question get the same id,
    whatever their answers, group ids and sources are, whatever embeddings
    the provider returns, and in every run. *)
Theorem point_id_is_md5_of_question
  (e1 e2 : Embedder.Embedder) (c1 c2 : provider) (w1 w2 w1' w2' : trace)
  (pairs1 pairs2 : list QAPair) (points1 points2 : list PointStruct) :
  build_points pairs1 e1 c1 w1 = (Return points1, w1') ->
  build_points pairs2 e2 c2 w2 = (Return points2, w2') ->
  Forall2 (fun qa pt =>
             Some (id pt) = option_map MD5.hexdigest (encode (question qa)))
          pairs1 points1
  /\ forall i j qa1 qa2,
       pairs1 !! i = Some qa1 -> pairs2 !! j = Some qa2 ->
       question qa1 = question qa2 ->
       exists p1 p2,
         points1 !! i = Some p1 /\ points2 !! j = Some p2 /\ id p1 = id p2.
Proof.
  unfold build_points. intros H1 H2.
  destruct (build_loop_points _ _ _ _ _ _ _ H1) as (new1 & -> & F1).
  destruct (build_loop_points _ _ _ _ _ _ _ H2) as (new2 & -> & F2).
  cbn [app]. split.
  - eapply Forall2_impl; [exact F1|]. intros qa pt [H _]. exact H.
  - intros i j qa1 qa2 Hi Hj Hq.
    destruct (Forall2_lookup_l _ _ _ _ _ F1 Hi) as (p1 & Hp1 & [E1 _]).
    destruct (Forall2_lookup_l _ _ _ _ _ F2 Hj) as (p2 & Hp2 & [E2 _]).
    exists p1, p2. split; [exact Hp1|]. split; [exact Hp2|].
    rewrite Hq in E1. rewrite <- E2 in E1. injection E1 as E. exact E.
Qed.

(** Two records that share only their question, built in two runs with
    different embeddings: both points get the MD5 of "What is X?". *)
Lemma point_id_is_md5_of_question_witness :
  exists p1 p2 w1 w2,
    build_points [first_record] (Embedder.__init__ local_settings)
      (steady [1%float]) [] = (Return [p1], w1)
    /\ build_points [second_record] (Embedder.__init__ local_settings)
         (steady [2%float; 3%float]) [] = (Return [p2], w2)
    /\ id p1 = id p2
    /\ id p1 = lit "ee27e8e6a046a4fee869e5d321498721".
Proof.
  destruct (build_points [first_record] (Embedder.__init__ local_settings)
              (steady [1%float]) []) as [[points1|x] w1] eqn:H1;
    [|vm_compute in H1; discriminate H1].
  destruct (build_points [second_record] (Embedder.__init__ local_settings)
              (steady [2%float; 3%float]) []) as [[points2|x] w2] eqn:H2;
    [|vm_compute in H2; discriminate H2].
  destruct (point_id_is_md5_of_question _ _ _ _ _ _ _ _ _ _ _ _ H1 H2)
    as [F Hsame].
  destruct (Hsame 0 0 first_record second_record eq_refl eq_refl eq_refl)
    as (p1 & p2 & Hp1 & Hp2 & Hid).
  assert (L1 : length points1 = 1).
  { symmetry. apply (Forall2_length _ _ _ F). }
  assert (L2 : length points2 = 1).
  { unfold build_points in H2.
    destruct (build_loop_points _ _ _ _ _ _ _ H2) as (new2 & -> & F2).
    symmetry. apply (Forall2_length _ _ _ F2). }
  destruct points1 as [|p1' [|? ?]]; try discriminate L1.
  destruct points2 as [|p2' [|? ?]]; try discriminate L2.
  cbn in Hp1, Hp2. injection Hp1 as ->. injection Hp2 as ->.
  exists p1, p2, w1, w2. split; [reflexivity|]. split; [reflexivity|].
  split; [exact Hid|].
  inversion F as [|qa pt l l' Hmd5 Fnil]; subst.
  vm_compute in Hmd5. injection Hmd5 as E. exact E.
Defined.

(** No embedding attempt, no point building and no collection check makes
    an upsert. *)
Lemma attempts_upserts (self : Embedder.Embedder) (client : provider) (text : str) :
  forall (remaining : list nat) (w : trace),
    List.filter is_upsert (snd (Embedder.attempts self client text remaining w))
    = List.filter is_upsert w.
Proof.
  induction remaining as [|attempt later IH]; intros w; [reflexivity|].
  cbn [Embedder.attempts].
  destruct (client (requests w) text) as [[|embedding data]|e].
  - cbn [snd]. rewrite List.filter_app. cbn. apply app_nil_r.
  - cbn [snd]. rewrite List.filter_app. cbn. apply app_nil_r.
  - destruct (Embedder.caught e).
    + destruct (Embedder._max_retries self <=? attempt)%nat.
      * cbn [snd]. rewrite List.filter_app. cbn. apply app_nil_r.
      * rewrite IH, !List.filter_app. cbn. rewrite !app_nil_r. reflexivity.
    + cbn [snd]. rewrite List.filter_app. cbn. apply app_nil_r.
Qed.

Lemma embed_upserts (self : Embedder.Embedder) (client : provider)
  (text : str) (w : trace) :
  List.filter is_upsert (snd (Embedder.embed self client text w))
  = List.filter is_upsert w.
Proof.
  unfold Embedder.embed. destruct text; [reflexivity|apply attempts_upserts].
Qed.

Lemma build_loop_upserts (embedder : Embedder.Embedder) (client : provider) :
  forall (pairs : list QAPair) (acc : list PointStruct) (w : trace),
    List.filter is_upsert (snd (build_loop embedder client pairs acc w))
    = List.filter is_upsert w.
Proof.
  induction pairs as [|qa later IH]; intros acc w; [reflexivity|].
  cbn [build_loop].
  pose proof (embed_upserts embedder client (question qa) w) as He.
  destruct (Embedder.embed embedder client (question qa) w)
    as [[embedding|e] w1]; cbn [snd] in He |- *; [|exact He].
  destruct (point_id (question qa)); cbn [snd]; [|exact He].
  rewrite IH. exact He.
Qed.

Lemma ensure_collection_upserts (env : world) (name : str) (w : trace) :
  List.filter is_upsert (snd (ensure_collection env name w))
  = List.filter is_upsert w.
Proof.
  unfold ensure_collection.
  destruct (qdrant_get_collection env) as [e|].
  - destruct e; cbn [snd]; rewrite ?List.filter_app; cbn;
      rewrite ?app_nil_r; try reflexivity.
    destruct (qdrant_create_collection env); cbn [snd];
      rewrite !List.filter_app; cbn; rewrite !app_nil_r; reflexivity.
  - cbn [snd]. rewrite List.filter_app. cbn. apply app_nil_r.
Qed.

(** The loop over records that follow records built without error. *)
Lemma build_loop_app (embedder : Embedder.Embedder) (client : provider)
  (post : list QAPair) :
  forall (pre : list QAPair) (acc : list PointStruct) (w : trace)
         (points : list PointStruct) (w' : trace),
    build_loop embedder client pre acc w = (Return points, w') ->
    build_loop embedder client (pre ++ post) acc w
    = build_loop embedder client post points w'.
Proof.
  induction pre as [|qa later IH]; intros acc w points w' H.
  - cbn in H. injection H as <- <-. reflexivity.
  - cbn [build_loop app] in H |- *.
    destruct (Embedder.embed embedder client (question qa) w)
      as [[embedding|e] w1]; [|discriminate H].
    destruct (point_id (question qa)); [|discriminate H].
    apply IH. exact H.
Qed.

(** C8. A run whose extraction fails ends with status 1 before any call is
    made: no embedding request, no upsert. When the embedding of one record
    fails, [build_points] raises whatever records come before and after it,
    and a run in which [build_points] raises ends with status 1 without an
    upsert. In every run the index receives no upsert at all, or exactly
    one, as the last call, and it holds one point for every extracted
    record. *)
Theorem ingestion_all_or_nothing (int_of_str : str -> option Z)
  (env : world) (file : workbook) :
  let run := main int_of_str env file in
  (forall e, load_qa_pairs int_of_str file = Err e -> run = (1%Z, []))
  /\ (forall qa_pairs settings w1 e w2,
         load_qa_pairs int_of_str file = Ok qa_pairs ->
         get_settings env = Return settings ->
         qdrant_connect env = None ->
         ensure_collection env (qdrant_collection settings) [] = (Return tt, w1) ->
         build_points qa_pairs (Embedder.__init__ settings) (openai env) w1
         = (Raise e, w2) ->
         run = (1%Z, w2) /\ List.filter is_upsert w2 = [])
  /\ (forall embedder client before qa after w points w' e w'',
         build_points before embedder client w = (Return points, w') ->
         Embedder.embed embedder client (question qa) w' = (Raise e, w'') ->
         build_points (before ++ qa :: after) embedder client w = (Raise e, w''))
  /\ (List.filter is_upsert (snd run) = []
      \/ exists qa_pairs name points before,
           load_qa_pairs int_of_str file = Ok qa_pairs
           /\ snd run = before ++ [Upsert name points]
           /\ List.filter is_upsert before = []
           /\ Forall2 built_from qa_pairs points).
Proof.
  intros run. subst run. unfold main. split; [|split; [|split]].
  - intros e He. rewrite He. reflexivity.
  - intros qa_pairs settings w1 e w2 Hload Hset Hconn Hens Hbuild.
    rewrite Hload, Hset, Hconn, Hens, Hbuild. split; [reflexivity|].
    pose proof (build_loop_upserts (Embedder.__init__ settings) (openai env)
                  qa_pairs [] w1) as Hb.
    unfold build_points in Hbuild. rewrite Hbuild in Hb. cbn [snd] in Hb.
    pose proof (ensure_collection_upserts env (qdrant_collection settings) [])
      as Hc.
    rewrite Hens in Hc. cbn [snd] in Hc. rewrite Hb, Hc. reflexivity.
  - intros embedder client before qa after w points w' e w'' Hb He.
    unfold build_points in *.
    rewrite (build_loop_app embedder client (qa :: after) before [] w points w' Hb).
    cbn [build_loop]. rewrite He. reflexivity.
  - destruct (load_qa_pairs int_of_str file) as [qa_pairs|e];
      [|left; reflexivity].
    destruct (get_settings env) as [settings|e]; [|left; reflexivity].
    destruct (qdrant_connect env); [left; reflexivity|].
    pose proof (ensure_collection_upserts env (qdrant_collection settings) [])
      as Hc.
    destruct (ensure_collection env (qdrant_collection settings) [])
      as [[u|e] w1]; cbn [snd] in Hc; [|left; exact Hc].
    pose proof (build_loop_upserts (Embedder.__init__ settings) (openai env)
                  qa_pairs [] w1) as Hb.
    destruct (build_points qa_pairs (Embedder.__init__ settings) (openai env) w1)
      as [[points|e] w2] eqn:Hbuild; unfold build_points in Hbuild;
      rewrite Hbuild in Hb; cbn [snd] in Hb;
      [|left; cbn [snd]; rewrite Hb; exact Hc].
    destruct (build_loop_points _ _ _ _ _ _ _ Hbuild) as (new & -> & Hnew).
    cbn [app] in *.
    destruct new as [|pt new]; [left; cbn [snd]; rewrite Hb; exact Hc|].
    right. exists qa_pairs, (qdrant_collection settings), (pt :: new), w2.
    split; [reflexivity|].
    split; [destruct (qdrant_upsert env (pt :: new)); reflexivity|].
    split; [rewrite Hb; exact Hc|exact Hnew].
Qed.

End BuildEmbeddingsSpec.

(** ** The end-to-end scenario of the specification *)

Module Scenario.
Import IO BuildEmbeddings.

Example one_pair_record :
  load_qa_pairs int_of_digits (Sheet one_pair) = Ok [first_record].
Proof. vm_compute. reflexivity. Qed.

Example one_pair_run :
  exists point,
    main int_of_digits calm (Sheet one_pair)
    = (0%Z, [GetCollection (lit "qa");
             EmbeddingsCreate default_embedding_model (lit "What is X?") 30;
             Upsert (lit "qa") [point]])
    /\ id point = lit "ee27e8e6a046a4fee869e5d321498721"
    /\ payload point = payload_of first_record.
Proof. eexists. split; [vm_compute; reflexivity|]. split; reflexivity. Qed.

Example missing_workbook_run :
  main int_of_digits calm Absent = (1%Z, []).
Proof. reflexivity. Qed.

End Scenario.

(** ** Further properties of the texts *)

Module TextFacts.

Lemma lstrip_suffix (s : str) : exists p, s = p ++ lstrip s.
Proof.
  induction s as [|c s [p IH]]; [exists []; reflexivity|].
  cbn [lstrip]. destruct (isspace c).
  - exists (c :: p). cbn [app]. f_equal. exact IH.
  - exists []. reflexivity.
Qed.

Lemma lstrip_head (s : str) :
  match lstrip s with c :: _ => isspace c = false | [] => True end.
Proof.
  induction s as [|c s IH]; [exact I|].
  cbn [lstrip]. destruct (isspace c) eqn:E; [exact IH|exact E].
Qed.

(** [rstrip] keeps a prefix of the text. *)
Lemma rstrip_prefix (s : str) : exists p, s = rstrip s ++ p.
Proof.
  unfold rstrip. destruct (lstrip_suffix (rev s)) as [p Hp].
  exists (rev p). rewrite <- rev_app_distr, <- Hp, rev_involutive. reflexivity.
Qed.

Lemma rstrip_last (s : str) :
  match last (rstrip s) with Some c => isspace c = false | None => True end.
Proof.
  unfold rstrip. pose proof (lstrip_head (rev s)) as H.
  destruct (lstrip (rev s)) as [|c l]; [exact I|].
  cbn [rev]. rewrite last_snoc. exact H.
Qed.

(** What [strip] returns has no white space at either end. *)
Theorem strip_trimmed (s : str) : trimmed (strip s).
Proof.
  unfold trimmed, strip. split; [|apply rstrip_last].
  pose proof (lstrip_head s) as H.
  destruct (rstrip_prefix (lstrip s)) as [p Hp].
  destruct (rstrip (lstrip s)) as [|c l]; [exact I|].
  rewrite Hp in H. exact H.
Qed.

(** What is already trimmed is left as it is. *)
Lemma lstrip_id (s : str) :
  match s with c :: _ => isspace c = false | [] => True end -> lstrip s = s.
Proof.
  destruct s as [|c l]; [reflexivity|]. cbn [lstrip]. intros ->. reflexivity.
Qed.

(** [strip] is idempotent: a text that was stripped is not changed by
    stripping it again. *)
Theorem strip_idempotent (s : str) : strip (strip s) = strip s.
Proof.
  destruct (strip_trimmed s) as [Hh Hl].
  unfold strip at 1. rewrite (lstrip_id _ Hh).
  unfold rstrip. rewrite lstrip_id; [apply rev_involutive|].
  destruct (strip s) as [|c l] using rev_ind; [exact I|].
  rewrite rev_app_distr. cbn. rewrite last_snoc in Hl. exact Hl.
Qed.

End TextFacts.

(** ** Further properties of the record extraction *)

Module ExtractionFacts.
Import IO BuildEmbeddings BuildEmbeddingsSpec.

Section Rows.

Variable int_of_str : str -> option Z.
Variable col_b : list cell.

Lemma came_from_shift (k idx : nat) (skipped rest : list cell) (r : QAPair) :
  length skipped = k ->
  came_from int_of_str col_b (idx + k) rest r ->
  came_from int_of_str col_b idx (skipped ++ rest) r.
Proof.
  intros Hk (j & q & a & Hq & Ha & H).
  exists (k + j), q, a.
  split. { rewrite lookup_app_r by lia. rewrite <- Hq. f_equal. lia. }
  split. { rewrite lookup_app_r by lia. rewrite <- Ha. f_equal. lia. }
  replace (idx + (k + j)) with (idx + k + j) by lia. exact H.
Qed.

(** Every record that a scan adds comes from a question row and the answer
    row next to it, and a scan of [m] rows adds at most [m / 2] records. *)
Lemma scan_records (n : nat) :
  forall (rest : list cell) (idx : nat) (acc result : list QAPair),
    length rest <= n ->
    scan int_of_str col_b idx rest acc = Ok result ->
    exists new,
      result = acc ++ new
      /\ 2 * length new <= length rest
      /\ Forall (came_from int_of_str col_b idx rest) new.
Proof.
  induction n as [|n IH]; intros rest idx acc result Hlen Hscan.
  - destruct rest; [|cbn in Hlen; lia]. cbn in Hscan. injection Hscan as <-.
    exists []. rewrite app_nil_r. split; [reflexivity|].
    split; [cbn; lia|constructor].
  - destruct rest as [|c after].
    { cbn in Hscan. injection Hscan as <-.
      exists []. rewrite app_nil_r. split; [reflexivity|].
      split; [cbn; lia|constructor]. }
    destruct (is_question c) eqn:Hq.
    + destruct after as [|a after'].
      { cbn [scan] in Hscan. unfold is_question in Hq. rewrite Hq in Hscan.
        destruct (strip (drop 2 (stripped c))); discriminate Hscan. }
      destruct (is_answer a) eqn:Ha.
      2:{ cbn [scan] in Hscan. unfold is_question in Hq. rewrite Hq in Hscan.
          unfold is_answer in Ha. rewrite Ha in Hscan.
          destruct (strip (drop 2 (stripped c))); discriminate Hscan. }
      destruct (body c) as [|c0 l0] eqn:Hbc.
      { cbn [scan] in Hscan. unfold is_question in Hq. rewrite Hq in Hscan.
        unfold body in Hbc. rewrite Hbc in Hscan. discriminate Hscan. }
      destruct (body a) as [|c1 l1] eqn:Hba.
      { cbn [scan] in Hscan. unfold is_question in Hq. rewrite Hq in Hscan.
        unfold is_answer in Ha. rewrite Ha in Hscan.
        unfold body in Hbc, Hba. rewrite Hbc, Hba in Hscan.
        discriminate Hscan. }
      assert (Nc : body c <> []) by (rewrite Hbc; discriminate).
      assert (Na : body a <> []) by (rewrite Hba; discriminate).
      rewrite (group_id_resolution int_of_str col_b idx c a after' acc
                 Hq Nc Ha Na) in Hscan.
      cbv zeta in Hscan. fold (group_raw_of col_b idx (idx + 1)) in Hscan.
      destruct (to_int int_of_str (group_raw_of col_b idx (idx + 1)))
        as [g| | ] eqn:Hg; try discriminate Hscan.
      apply IH in Hscan as (new & -> & Hn & Hall); [|cbn in Hlen; lia].
      eexists (_ :: new). rewrite <- app_assoc.
      split; [reflexivity|]. split; [cbn [length] in *; lia|].
      constructor.
      * exists 0, c, a. replace (idx + 0) with idx by lia.
        cbn [question answer source group_id].
        split; [reflexivity|]. split; [reflexivity|].
        rewrite Hbc, Hba in *.
        repeat split; try assumption; try reflexivity; discriminate.
      * eapply Forall_impl; [exact Hall|]. intros r Hr.
        apply (came_from_shift 2 idx [c; a] after' r eq_refl Hr).
    + rewrite scan_skip in Hscan by exact Hq.
      destruct (IH after (idx + 1) acc result) as (new & -> & Hn & Hall);
        [cbn in Hlen; lia|exact Hscan|].
      exists new. split; [reflexivity|]. split; [cbn [length]; lia|].
      eapply Forall_impl; [exact Hall|]. intros r Hr.
      apply (came_from_shift 1 idx [c] after r eq_refl Hr).
Qed.

(** Rows that hold no question row give no record and no error. *)
Lemma scan_no_question (rest : list cell) :
  forall (idx : nat) (acc : list QAPair),
    Forall (fun c => is_question c = false) rest ->
    scan int_of_str col_b idx rest acc = Ok acc.
Proof.
  induction rest as [|c after IH]; intros idx acc H; [reflexivity|].
  inversion H as [|? ? Hc Hafter]; subst.
  rewrite scan_skip by exact Hc. apply IH. exact Hafter.
Qed.

End Rows.

Lemma column_length (j : nat) (df : list (list cell)) :
  length (column j df) <= length df.
Proof.
  unfold column. destruct (j <? width df)%nat; [|cbn; lia].
  rewrite length_map. apply le_n.
Qed.

(** The scan of a sheet whose first [i] rows scan without error goes on at
    row [i] with the records of these rows. *)
Lemma scan_from (int_of_str : str -> option Z) (col_b col_c : list cell)
  (i : nat) (acc : list QAPair) :
  scan int_of_str col_b 0 (take i col_c) [] = Ok acc ->
  scan int_of_str col_b 0 col_c []
  = scan int_of_str col_b (length (take i col_c)) (drop i col_c) acc.
Proof.
  intros H. rewrite <- (take_drop i col_c) at 1.
  apply (scan_app int_of_str col_b (drop i col_c) (length (take i col_c))
           (take i col_c) 0 [] acc (le_n _) H).
Qed.

(** An error of the scan is the error of [load_qa_pairs]. *)
Lemma load_scan_error (int_of_str : str -> option Z) (df : list (list cell))
  (e : load_error) :
  scan int_of_str (column 1 df) 0 (column 2 df) [] = Err e ->
  load_qa_pairs int_of_str (Sheet df) = Err e.
Proof. intros H. cbn [load_qa_pairs]. rewrite H. reflexivity. Qed.

(** X1. What [load_qa_pairs] returns is never empty; it holds at most one record
    for every two rows of the sheet; every record comes from a question row
    and the answer row right after it, and its question and answer are
    non-empty texts without white space at either end. *)
Theorem load_records_sound (int_of_str : str -> option Z) (file : workbook)
  (records : list QAPair) :
  load_qa_pairs int_of_str file = Ok records ->
  exists df,
    file = Sheet df
    /\ records <> []
    /\ 2 * length records <= length df
    /\ Forall (fun r =>
                 came_from int_of_str (column 1 df) 0 (column 2 df) r
                 /\ trimmed (question r) /\ trimmed (answer r)) records.
Proof.
  destruct file as [ |e|df]; try discriminate. intros H. exists df.
  split; [reflexivity|]. cbn [load_qa_pairs] in H.
  destruct (scan int_of_str (column 1 df) 0 (column 2 df) []) as [result|e]
    eqn:Hscan; [|discriminate H].
  destruct (scan_records int_of_str (column 1 df) _ _ _ _ _ (le_n _) Hscan)
    as (new & -> & Hn & Hall).
  cbn [app] in *. destruct new as [|r new]; [discriminate H|].
  injection H as <-. split; [discriminate|].
  split. { pose proof (column_length 2 df). lia. }
  eapply Forall_impl; [exact Hall|]. intros r' Hr. split; [exact Hr|].
  destruct Hr as (j & q & a & _ & _ & _ & _ & -> & -> & _).
  split; apply TextFacts.strip_trimmed.
Qed.

Lemma load_records_sound_witness :
  exists df records,
    load_qa_pairs int_of_digits (Sheet sample_sheet) = Ok records
    /\ Sheet sample_sheet = Sheet df
    /\ records <> []
    /\ 2 * length records <= length df
    /\ Forall (fun r =>
                 came_from int_of_digits (column 1 df) 0 (column 2 df) r
                 /\ trimmed (question r) /\ trimmed (answer r)) records.
Proof.
  destruct (load_qa_pairs int_of_digits (Sheet sample_sheet))
    as [records|e] eqn:H; [|vm_compute in H; discriminate H].
  destruct (load_records_sound int_of_digits (Sheet sample_sheet) records H)
    as (df & Hdf & Hrest).
  exists df, records. split; [reflexivity|]. split; [exact Hdf|exact Hrest].
Defined.

(** X2. A sheet with fewer than three columns, or without a question row in its
    third column, gives the error "No question/answer pairs were extracted":
    answer rows without a question, rows without a marker and cells that are
    not text are passed over without an error of their own. *)
Theorem load_without_question (int_of_str : str -> option Z)
  (df : list (list cell)) :
  width df <= 2 \/ Forall (fun c => is_question c = false) (column 2 df) ->
  load_qa_pairs int_of_str (Sheet df) = Err NoPairs.
Proof.
  intros H.
  assert (Hall : Forall (fun c => is_question c = false) (column 2 df)).
  { destruct H as [Hw|H]; [|exact H]. unfold column.
    destruct (Nat.ltb_spec 2 (width df)); [lia|constructor]. }
  cbn [load_qa_pairs].
  rewrite (scan_no_question int_of_str (column 1 df) _ 0 [] Hall). reflexivity.
Qed.

Lemma load_without_question_witness :
  load_qa_pairs int_of_digits (Sheet answers_only_sheet) = Err NoPairs.
Proof.
  apply load_without_question. right.
  repeat constructor.
Defined.

(** X3. When the rows before a question row scan without error: a question row
    without text after its marker gives the error "Empty question" for its
    row, whatever follows it; a question row with text followed by an answer
    row without text gives the error "Empty answer" for the row of the
    answer. *)
Theorem load_empty_text (int_of_str : str -> option Z)
  (df : list (list cell)) (i : nat) (q : cell) (acc : list QAPair) :
  let col_b := column 1 df in
  let col_c := column 2 df in
  scan int_of_str col_b 0 (take i col_c) [] = Ok acc ->
  col_c !! i = Some q ->
  is_question q = true ->
  (body q = [] ->
   load_qa_pairs int_of_str (Sheet df) = Err (EmptyQuestion (i + 1)))
  /\ (forall a,
         body q <> [] -> col_c !! (i + 1) = Some a ->
         is_answer a = true -> body a = [] ->
         load_qa_pairs int_of_str (Sheet df) = Err (EmptyAnswer (i + 2))).
Proof.
  intros col_b col_c Hpre Hi Hq.
  pose proof (scan_from int_of_str col_b col_c i acc Hpre) as Hgo.
  rewrite length_take_le in Hgo
    by (apply Nat.lt_le_incl, (lookup_lt_Some _ _ _ Hi)).
  rewrite (drop_S col_c q i Hi) in Hgo.
  unfold is_question in Hq. split.
  - intros Hb. apply load_scan_error. fold col_b col_c. rewrite Hgo.
    cbn [scan]. rewrite Hq. unfold body in Hb. rewrite Hb. reflexivity.
  - intros a Hb Ha Hia Hba. apply load_scan_error. fold col_b col_c.
    rewrite Hgo.
    assert (Hd : drop (S i) col_c = a :: drop (S (S i)) col_c).
    { apply drop_S. rewrite <- Ha. f_equal. lia. }
    rewrite Hd. cbn [scan]. rewrite Hq. unfold body in Hb, Hba.
    destruct (strip (drop 2 (stripped q))); [contradiction|].
    unfold is_answer in Hia. rewrite Hia. cbn [negb]. rewrite Hba.
    reflexivity.
Qed.

Lemma load_empty_text_witness :
  load_qa_pairs int_of_digits (Sheet empty_question_sheet)
  = Err (EmptyQuestion 1)
  /\ load_qa_pairs int_of_digits (Sheet empty_answer_sheet)
     = Err (EmptyAnswer 2).
Proof.
  split.
  - apply (proj1 (load_empty_text int_of_digits empty_question_sheet 0
                    (Text (lit "q.")) [] eq_refl eq_refl eq_refl)).
    reflexivity.
  - apply (proj2 (load_empty_text int_of_digits empty_answer_sheet 0
                    (Text (lit "Q. What is X?")) [] eq_refl eq_refl eq_refl)
             (Text (lit "A.   "))); try reflexivity.
    intros H. vm_compute in H. discriminate H.
Defined.

(** X4. When the rows before a matched pair of rows scan without error and the
    group cell of the question row holds a value that is not missing and
    that [int] rejects with [TypeError] or [ValueError] (a text that is not
    a number, a date), the error is "Invalid group id" for the two rows with
    that value: the group cell of the answer row is not tried, whatever it
    holds. An infinite number is not such a value: [int] raises
    [OverflowError] for it. *)
Theorem load_group_without_fallback (int_of_str : str -> option Z)
  (df : list (list cell)) (i : nat) (q a : cell) (acc : list QAPair) :
  let col_b := column 1 df in
  let col_c := column 2 df in
  scan int_of_str col_b 0 (take i col_c) [] = Ok acc ->
  col_c !! i = Some q -> col_c !! (i + 1) = Some a ->
  is_question q = true -> body q <> [] ->
  is_answer a = true -> body a <> [] ->
  isna (group_at col_b i) = false ->
  to_int int_of_str (group_at col_b i) = TypeOrValueError ->
  load_qa_pairs int_of_str (Sheet df)
  = Err (InvalidGroupId (i + 1) (i + 2) (group_at col_b i)).
Proof.
  intros col_b col_c Hpre Hi Ha Hq Hbq Hia Hba Hna Hint.
  apply load_scan_error. fold col_b col_c.
  rewrite (scan_from int_of_str col_b col_c i acc Hpre).
  rewrite length_take_le by (apply Nat.lt_le_incl, (lookup_lt_Some _ _ _ Hi)).
  rewrite (drop_S col_c q i Hi).
  assert (Hd : drop (S i) col_c = a :: drop (S (S i)) col_c).
  { apply drop_S. rewrite <- Ha. f_equal. lia. }
  rewrite Hd.
  rewrite (group_id_resolution int_of_str col_b i q a _ acc Hq Hbq Hia Hba).
  cbv zeta. rewrite Hna, Hint. reflexivity.
Qed.

Lemma load_group_without_fallback_witness :
  load_qa_pairs int_of_digits (Sheet text_group_sheet)
  = Err (InvalidGroupId 1 2 (Text (lit "group A"))).
Proof.
  apply (load_group_without_fallback int_of_digits text_group_sheet 0
           (Text (lit "Q. What is X?")) (Text (lit "A. X is Y.")) []);
    try reflexivity; intros H; vm_compute in H; discriminate H.
Defined.

End ExtractionFacts.

(** ** Further properties of the embedder *)

Module EmbedderFacts.
Import IO Embedder EmbedderSpec.

(** An attempt whose reply is not retried, or that is the last one, ends the
    loop. *)
Lemma attempts_settle (self : Embedder) (client : provider) (text : str)
  (attempt : nat) (later : list nat) (w : trace) :
  retried (client (requests w) text) = false
  \/ (_max_retries self <=? attempt)%nat = true ->
  attempts self client text (attempt :: later) w
  = (settle (client (requests w) text),
     w ++ [EmbeddingsCreate (_model self) text 30]).
Proof.
  intros H. cbn [attempts].
  destruct (client (requests w) text) as [[|v d]|e]; try reflexivity.
  cbn [settle retried] in *. destruct (caught e); [|reflexivity].
  destruct H as [H|H]; [discriminate H|]. rewrite H. reflexivity.
Qed.

(** The run of [embed] on a non-empty text: [k < 3] replies are retried,
    the reply number [k] settles the result, and the calls are the ones of
    [k] retries and one more request. *)
Lemma embed_run (settings : Settings) (client : provider) (text : str)
  (w : trace) :
  text <> [] ->
  let self := __init__ settings in
  exists k,
    k < 3
    /\ (forall j, j < k -> retried (client (requests w + j) text) = true)
    /\ (k < 2 -> retried (client (requests w + k) text) = false)
    /\ embed self client text w
       = (settle (client (requests w + k) text),
          w ++ retry_events self text k).
Proof.
  intros Htext self.
  assert (Hembed : embed self client text w
                   = attempts self client text [1; 2; 3] w).
  { destruct text; [contradiction|reflexivity]. }
  rewrite Hembed.
  destruct (retried (client (requests w) text)) eqn:R0.
  2:{ exists 0. rewrite Nat.add_0_r. split; [lia|].
      split; [intros j Hj; lia|]. split; [intros _; exact R0|].
      apply attempts_settle. left. exact R0. }
  destruct (client (requests w) text) as [d0|e0] eqn:C0; [discriminate R0|].
  cbn [retried] in R0.
  rewrite (attempts_retry self client text 1 _ w e0 C0 R0 eq_refl).
  assert (Q1 : requests (w ++ [EmbeddingsCreate (_model self) text 30]
                           ++ [Sleep (_retry_delay self * float_of_nat 1)%float])
               = requests w + 1).
  { rewrite app_assoc, requests_sleep, requests_create. lia. }
  destruct (retried (client (requests w + 1) text)) eqn:R1.
  2:{ exists 1. split; [lia|]. split.
      { intros j Hj. replace j with 0 by lia. rewrite Nat.add_0_r, C0.
        exact R0. }
      split; [intros _; exact R1|].
      rewrite attempts_settle by (left; rewrite Q1; exact R1).
      rewrite Q1. unfold retry_events. cbn [seq flat_map].
      rewrite <- !app_assoc. reflexivity. }
  destruct (client (requests w + 1) text) as [d1|e1] eqn:C1; [discriminate R1|].
  cbn [retried] in R1.
  rewrite (attempts_retry self client text 2 _ _ e1);
    [|rewrite Q1; exact C1|exact R1|reflexivity].
  exists 2. split; [lia|]. split.
  { intros j Hj. destruct j as [|[|j]]; [| |lia].
    - rewrite Nat.add_0_r, C0. exact R0.
    - rewrite C1. exact R1. }
  split; [intros H; lia|].
  rewrite attempts_settle by (right; reflexivity).
  replace (requests _) with (requests w + 2).
  2:{ rewrite !app_assoc, requests_sleep, requests_create,
        requests_sleep, requests_create. lia. }
  unfold retry_events. cbn [seq flat_map]. rewrite <- !app_assoc. reflexivity.
Qed.

Lemma sleeps_retry_events (self : Embedder) (text : str) (k : nat) :
  length (List.filter is_sleep (retry_events self text k)) = k.
Proof.
  unfold retry_events. generalize 1%nat as a.
  induction k as [|k IH]; intros a; [reflexivity|].
  simpl. f_equal. apply IH.
Qed.

Lemma retry_events_calls (self : Embedder) (text : str) (k : nat) :
  Forall (fun e => e = EmbeddingsCreate (_model self) text 30
                   \/ is_sleep e = true) (retry_events self text k).
Proof.
  unfold retry_events. generalize 1%nat as a.
  induction k as [|k IH]; intros a.
  - repeat constructor.
  - cbn [seq flat_map app]. constructor; [left; reflexivity|].
    constructor; [right; reflexivity|]. apply IH.
Qed.

(** X5. The reply that settles a run of [embed] on a non-empty text is the first
    one that is not a failure with [OpenAIError] or [httpx.HTTPError]: a
    vector is returned, a response without data raises [IndexError], and any
    other exception of the client is raised as it is, not wrapped in
    [EmbeddingError] and not retried. No request follows that reply. *)
Theorem embed_first_settling_reply (settings : Settings) (client : provider)
  (text : str) (w : trace) (k : nat) :
  text <> [] ->
  k < 3 ->
  (forall j, j < k -> retried (client (requests w + j) text) = true) ->
  retried (client (requests w + k) text) = false ->
  let self := __init__ settings in
  embed self client text w
  = (settle (client (requests w + k) text), w ++ retry_events self text k)
  /\ requests (snd (embed self client text w)) = requests w + (k + 1).
Proof.
  intros Htext Hk Hbefore Hthis self.
  destruct (embed_run settings client text w Htext)
    as (k' & Hk' & Hb' & Hn' & Hrun).
  assert (k' = k) as ->.
  { destruct (Nat.lt_trichotomy k' k) as [Hlt|[Heq|Hgt]]; [|exact Heq|].
    - rewrite (Hbefore k' Hlt) in Hn'. assert (k' < 2) by lia.
      specialize (Hn' H). discriminate Hn'.
    - rewrite (Hb' k Hgt) in Hthis. discriminate Hthis. }
  subst self. split; [exact Hrun|].
  rewrite Hrun. cbn [snd]. unfold requests.
  rewrite List.filter_app, List.length_app.
  fold (requests w). fold (requests (retry_events (__init__ settings) text k)).
  rewrite requests_retry_events. lia.
Qed.

(** A time-out, then an exception that is not caught: two requests, one
    sleep, and the exception itself. *)
Lemma embed_first_settling_reply_witness :
  let create := EmbeddingsCreate default_embedding_model (lit "hi") 30 in
  embed (__init__ local_settings) flaky (lit "hi") []
  = (Raise (OtherError "connection reset"), [create; Sleep 2%float; create]).
Proof.
  assert (H : lit "hi" <> []) by discriminate.
  assert (Hb : forall j, j < 1 -> retried (flaky (requests [] + j) (lit "hi")) = true).
  { intros j Hj. replace j with 0 by lia. reflexivity. }
  assert (Hk : 1 < 3) by lia.
  exact (proj1 (embed_first_settling_reply local_settings flaky (lit "hi") [] 1
                  H Hk Hb eq_refl)).
Defined.

(** X6. Whatever the provider does and whatever the text is, [embed] only adds
    calls to the trace: at most three requests, all for the given text with
    the model of the settings and the time-out 30, one sleep fewer than
    requests, no other call, and no call at all for the empty text. *)
Theorem embed_bounded (settings : Settings) (client : provider) (text : str)
  (w : trace) :
  let self := __init__ settings in
  exists calls,
    snd (embed self client text w) = w ++ calls
    /\ requests calls <= 3
    /\ length (List.filter is_sleep calls) = requests calls - 1
    /\ Forall (fun e => e = EmbeddingsCreate (embedding_model settings) text 30
                        \/ is_sleep e = true) calls
    /\ (text = [] -> calls = []).
Proof.
  intros self. destruct text as [|c t].
  - exists []. cbn. rewrite app_nil_r. repeat split; [lia|constructor].
  - destruct (embed_run settings client (c :: t) w) as (k & Hk & _ & _ & Hrun);
      [discriminate|].
    subst self. exists (retry_events (__init__ settings) (c :: t) k).
    rewrite Hrun.
    split; [reflexivity|]. rewrite requests_retry_events, sleeps_retry_events.
    split; [lia|]. split; [lia|].
    split; [exact (retry_events_calls (__init__ settings) (c :: t) k)
           |discriminate].
Qed.

End EmbedderFacts.

(** ** Further properties of the retriever *)

Module RetrieverFacts.
Import Retriever RetrieverSpec.

(** A comparison with NaN is false. *)
Lemma SFcompare_refl (x : spec_float) :
  SFcompare x x = None -> x = S754_nan.
Proof.
  destruct x as [s|s| |s m e]; cbn; intros H;
    try reflexivity; discriminate H.
Qed.

Lemma is_nan_spec (f : float) : PrimFloat.is_nan f = true -> Prim2SF f = S754_nan.
Proof.
  unfold PrimFloat.is_nan. rewrite FloatAxioms.eqb_spec. unfold SFeqb.
  intros H. apply SFcompare_refl.
  destruct (Prim2SF f) as [s|s| |s m e]; cbn in *; try reflexivity.
  - discriminate H.
  - destruct s; discriminate H.
  - rewrite Z.compare_refl in H.
    assert (Pos.compare_cont Eq m m = Eq) as E by apply Pos.compare_refl.
    rewrite E in H. destruct s; discriminate H.
Qed.

Lemma ltb_nan (s t : float) :
  PrimFloat.is_nan s = true \/ PrimFloat.is_nan t = true ->
  (s <? t)%float = false.
Proof.
  rewrite FloatAxioms.ltb_spec. unfold SFltb. intros [H|H].
  - rewrite (is_nan_spec s H). reflexivity.
  - rewrite (is_nan_spec t H). destruct (Prim2SF s); reflexivity.
Qed.

(** The keys copied from the payload, and the keys never set. *)
Lemma decide_hits_copied (self : Retriever) (top_hit : ScoredPoint)
  (rest : list ScoredPoint) (key : string) :
  key = "question" \/ key = "source" ->
  decide_hits self (top_hit :: rest) !! key
  = match payload top_hit with Some p => p | None => ∅ end !! key.
Proof.
  intros Hkey. unfold decide_hits.
  set (p := match payload top_hit with Some p => p | None => ∅ end).
  assert (Nw : "warning" <> key) by (destruct Hkey; subst; discriminate).
  assert (Na : "answer" <> key) by (destruct Hkey; subst; discriminate).
  assert (Ns : "score" <> key) by (destruct Hkey; subst; discriminate).
  destruct (low_confidence self top_hit);
    [rewrite lookup_insert_ne by exact Nw|];
    unfold copy_key;
    (destruct Hkey as [-> | ->];
     destruct (p !! "source") eqn:Es; destruct (p !! "question") eqn:Eq;
     rewrite ?lookup_insert_eq; rewrite ?lookup_insert_ne by discriminate;
     rewrite ?lookup_insert_eq; rewrite ?lookup_insert_ne by discriminate;
     rewrite ?lookup_empty; reflexivity).
Qed.

Lemma decide_hits_unset (self : Retriever) (top_hit : ScoredPoint)
  (rest : list ScoredPoint) (key : string) :
  key <> "answer" -> key <> "score" -> key <> "question" ->
  key <> "source" -> key <> "warning" ->
  decide_hits self (top_hit :: rest) !! key = None.
Proof.
  intros Na Ns Nq Nsrc Nw. unfold decide_hits, copy_key.
  destruct (low_confidence self top_hit);
    [rewrite lookup_insert_ne by congruence|];
    (destruct (_ !! "source"); [rewrite lookup_insert_ne by congruence|]);
    (destruct (_ !! "question"); [rewrite lookup_insert_ne by congruence|]);
    rewrite !lookup_insert_ne by congruence; apply lookup_empty.
Qed.

(** X7. The result for at least one hit, key by key: the answer and the score
    are always there; the question and the source are the ones of the
    payload of the top hit, present when the payload has them; the warning
    is there when the confidence is low; and no other key is, whatever else
    the payload holds. *)
Theorem decide_hits_keys (self : Retriever) (top_hit : ScoredPoint)
  (rest : list ScoredPoint) (key : string) :
  let p := match payload top_hit with Some p => p | None => ∅ end in
  decide_hits self (top_hit :: rest) !! key
  = if decide (key = "answer") then
      Some (or_ (top_answer top_hit) (VStr NO_RESULTS))
    else if decide (key = "score") then Some (of_score (score top_hit))
    else if decide (key = "question") then p !! "question"
    else if decide (key = "source") then p !! "source"
    else if decide (key = "warning") then
      if low_confidence self top_hit then Some (VStr LOW_CONFIDENCE) else None
    else None.
Proof.
  intros p.
  destruct (decide (key = "answer")) as [->|Na]; [apply decide_hits_answer|].
  destruct (decide (key = "warning")) as [->|Nw].
  { rewrite decide_hits_warning.
    repeat (destruct (decide _) as [E|_]; [discriminate E|]). reflexivity. }
  unfold decide_hits. fold p.
  assert (Hw : forall m : gmap string pyval,
             (if low_confidence self top_hit
              then <["warning" := VStr LOW_CONFIDENCE]> m else m) !! key
             = m !! key).
  { intros m. destruct (low_confidence self top_hit); [|reflexivity].
    apply lookup_insert_ne. congruence. }
  rewrite Hw. unfold copy_key.
  destruct (decide (key = "score")) as [->|Ns].
  { destruct (p !! "source"); [rewrite lookup_insert_ne by discriminate|];
      (destruct (p !! "question"); [rewrite lookup_insert_ne by discriminate|]);
      rewrite lookup_insert_ne by discriminate; apply lookup_insert_eq. }
  destruct (decide (key = "question")) as [->|Nq].
  { destruct (p !! "source"); [rewrite lookup_insert_ne by discriminate|];
      (destruct (p !! "question") eqn:Eq;
       [apply lookup_insert_eq|]);
      rewrite !lookup_insert_ne by discriminate; apply lookup_empty. }
  destruct (decide (key = "source")) as [->|Nsrc].
  { destruct (p !! "source") eqn:Es; [apply lookup_insert_eq|].
    destruct (p !! "question"); rewrite !lookup_insert_ne by discriminate;
      apply lookup_empty. }
  destruct (p !! "source"); [rewrite lookup_insert_ne by congruence|];
    (destruct (p !! "question"); [rewrite lookup_insert_ne by congruence|]);
    rewrite !lookup_insert_ne by congruence; apply lookup_empty.
Qed.

(** X8. A score that is not a number, or a threshold that is not a number, never
    gives a warning: every comparison with NaN is false, so such a hit
    passes the confidence gate. *)
Theorem nan_passes_the_gate (self : Retriever) (top_hit : ScoredPoint)
  (rest : list ScoredPoint) (s : float) :
  score top_hit = Some s ->
  PrimFloat.is_nan s = true \/ PrimFloat.is_nan (_threshold self) = true ->
  decide_hits self (top_hit :: rest) !! "warning" = None.
Proof.
  intros Hs Hnan. rewrite decide_hits_warning. unfold low_confidence.
  rewrite Hs, (ltb_nan _ _ Hnan). reflexivity.
Qed.

Lemma nan_passes_the_gate_witness :
  decide_hits (__init__ "qa" 0.82%float 5)
    [{| score := Some nan; payload := None |}] !! "warning" = None.
Proof.
  apply (nan_passes_the_gate (__init__ "qa" 0.82%float 5)
           {| score := Some nan; payload := None |} [] nan eq_refl).
  left. reflexivity.
Defined.

End RetrieverFacts.

(** ** Further properties of point building and of the ingestion run *)

Module PipelineFacts.
Import IO BuildEmbeddings BuildEmbeddingsSpec.

Lemma le_bytes_range (count : nat) (x : Z) :
  Forall (fun b => (0 <= b < 256)%Z) (MD5.le_bytes count x).
Proof.
  unfold MD5.le_bytes. apply Forall_forall. intros b Hb.
  apply list_elem_of_In, in_map_iff in Hb. destruct Hb as (k & <- & _).
  apply Z.mod_pos_bound. lia.
Qed.

Lemma hex_digit_lower (d : Z) :
  (0 <= d < 16)%Z -> lower_hex (MD5.hex_digit d) = true.
Proof.
  intros Hd. unfold MD5.hex_digit, lower_hex.
  destruct (Z.ltb_spec d 10).
  - apply orb_true_iff. left. apply andb_true_iff.
    split; apply N.leb_le; lia.
  - apply orb_true_iff. right. apply andb_true_iff.
    split; apply N.leb_le; lia.
Qed.

Lemma hex_of_bytes (bytes : list Z) :
  Forall (fun b => (0 <= b < 256)%Z) bytes ->
  let text := flat_map (fun b => [MD5.hex_digit (b / 16);
                                  MD5.hex_digit (b mod 16)]) bytes in
  length text = 2 * length bytes /\ forallb lower_hex text = true.
Proof.
  induction 1 as [|b bytes Hb _ [IHl IHf]]; [split; reflexivity|].
  cbn [flat_map app length forallb]. split; [cbn zeta in IHl; lia|].
  rewrite !hex_digit_lower; [exact IHf| |].
  - apply Z.mod_pos_bound. lia.
  - split; [apply Z.div_pos; lia|apply Z.div_lt_upper_bound; lia].
Qed.

(** A digest in hexadecimal is 32 lower-case hexadecimal digits. *)
Lemma hexdigest_shape (msg : list Byte.byte) :
  length (MD5.hexdigest msg) = 32
  /\ forallb lower_hex (MD5.hexdigest msg) = true.
Proof.
  unfold MD5.hexdigest.
  assert (Hr : Forall (fun b => (0 <= b < 256)%Z) (MD5.digest msg)).
  { unfold MD5.digest. repeat apply Forall_app_2; apply le_bytes_range. }
  assert (Hl : length (MD5.digest msg) = 16).
  { unfold MD5.digest, MD5.le_bytes.
    rewrite !List.length_app, !length_map, !length_seq. reflexivity. }
  destruct (hex_of_bytes _ Hr) as [H1 H2]. split; [|exact H2].
  rewrite H1, Hl. reflexivity.
Qed.

(** X9. The id of every point that [build_points] builds is a text of 32
    lower-case hexadecimal digits, whatever the question is. *)
Theorem point_ids_are_hex (pairs : list QAPair) (embedder : Embedder.Embedder)
  (client : provider) (w w' : trace) (points : list PointStruct) :
  build_points pairs embedder client w = (Return points, w') ->
  Forall (fun pt => length (id pt) = 32
                    /\ forallb lower_hex (id pt) = true) points.
Proof.
  unfold build_points. intros H.
  destruct (build_loop_points _ _ _ _ _ _ _ H) as (new & -> & F).
  cbn [app]. clear H. induction F as [|qa pt pairs new [Hid _] _ IH];
    constructor; [|exact IH].
  destruct (encode (question qa)) as [bytes|]; [|discriminate Hid].
  cbn in Hid. injection Hid as ->. apply hexdigest_shape.
Qed.

Lemma point_ids_are_hex_witness :
  exists points w',
    build_points [first_record; second_record]
      (Embedder.__init__ local_settings) (steady [1%float]) []
    = (Return points, w')
    /\ Forall (fun pt => length (id pt) = 32
                         /\ forallb lower_hex (id pt) = true) points.
Proof.
  destruct (build_points [first_record; second_record]
              (Embedder.__init__ local_settings) (steady [1%float]) [])
    as [[points|x] w'] eqn:H; [|vm_compute in H; discriminate H].
  exists points, w'. split; [reflexivity|].
  exact (point_ids_are_hex _ _ _ _ _ _ H).
Defined.

Lemma payload_of_lookup (qa : QAPair) :
  payload_of qa !! "answer" = Some (VStr (answer qa))
  /\ payload_of qa !! "question" = Some (VStr (question qa))
  /\ payload_of qa !! "source" = Some (VStr (source qa))
  /\ payload_of qa !! "group_id" = Some (VInt (group_id qa)).
Proof.
  unfold payload_of. repeat split;
    rewrite ?lookup_insert_eq; rewrite ?lookup_insert_ne by discriminate;
    rewrite ?lookup_insert_eq; rewrite ?lookup_insert_ne by discriminate;
    rewrite ?lookup_insert_eq; rewrite ?lookup_insert_ne by discriminate;
    rewrite ?lookup_insert_eq; reflexivity.
Qed.

(** The records of a sheet have non-empty answers. *)
Lemma load_answers (int_of_str : str -> option Z) (file : workbook)
  (records : list QAPair) :
  load_qa_pairs int_of_str file = Ok records ->
  Forall (fun r => answer r <> []) records.
Proof.
  destruct file as [ |e|df]; try discriminate. cbn [load_qa_pairs]. intros H.
  destruct (scan int_of_str (column 1 df) 0 (column 2 df) []) as [result|e]
    eqn:Hscan; [|discriminate H].
  destruct (ExtractionFacts.scan_records int_of_str (column 1 df) _ _ _ _ _
              (le_n _) Hscan) as (new & -> & _ & Hall).
  cbn [app] in H. destruct new as [|r new]; [discriminate H|].
  injection H as <-.
  eapply Forall_impl; [exact Hall|]. intros r' (j & q & a & Hr).
  tauto.
Qed.


(** X10. From the sheet to the answer: when the point built from an extracted
    record comes back as the top hit of a search, the answer, the question
    and the source of the result are exactly the ones of that record (the
    answer of a record is never empty, so it is not replaced), and the group
    id of the payload is not passed on. *)
Theorem indexed_record_is_answered (int_of_str : str -> option Z)
  (file : workbook) (records : list QAPair) (embedder : Embedder.Embedder)
  (client : provider) (w w' : trace) (points : list PointStruct)
  (self : Retriever.Retriever) (i : nat) (pt : PointStruct) (s : option float)
  (rest : list Retriever.ScoredPoint) :
  load_qa_pairs int_of_str file = Ok records ->
  build_points records embedder client w = (Return points, w') ->
  points !! i = Some pt ->
  exists r,
    records !! i = Some r
    /\ answer r <> []
    /\ let response :=
         Retriever.decide_hits self
           ({| Retriever.score := s;
               Retriever.payload := Some (payload pt) |} :: rest) in
       response !! "answer" = Some (VStr (answer r))
       /\ response !! "question" = Some (VStr (question r))
       /\ response !! "source" = Some (VStr (source r))
       /\ response !! "group_id" = None.
Proof.
  intros Hload Hbuild Hpt. unfold build_points in Hbuild.
  destruct (build_loop_points _ _ _ _ _ _ _ Hbuild) as (new & -> & F).
  cbn [app] in Hpt.
  destruct (Forall2_lookup_r _ _ _ _ _ F Hpt) as (r & Hr & _ & Hpay).
  exists r. split; [exact Hr|].
  pose proof (load_answers _ _ _ Hload) as Hans.
  rewrite Forall_lookup in Hans. specialize (Hans i r Hr).
  split; [exact Hans|].
  destruct (payload_of_lookup r) as (La & Lq & Ls & _).
  cbv zeta. rewrite Hpay.
  rewrite RetrieverSpec.decide_hits_answer.
  rewrite !RetrieverFacts.decide_hits_copied by tauto.
  rewrite RetrieverFacts.decide_hits_unset by discriminate.
  unfold Retriever.top_answer. cbn [Retriever.payload]. rewrite La, Lq, Ls.
  repeat split. unfold or_. cbn [truthy].
  destruct (answer r); [contradiction|reflexivity].
Qed.

Lemma indexed_record_is_answered_witness :
  exists points w' pt r,
    build_points [first_record] (Embedder.__init__ local_settings)
      (steady [1%float]) [] = (Return points, w')
    /\ points !! 0 = Some pt
    /\ [first_record] !! 0 = Some r
    /\ answer r <> []
    /\ let response :=
         Retriever.decide_hits (Retriever.__init__ "qa" 0.82%float 5)
           [{| Retriever.score := Some 0.9%float;
               Retriever.payload := Some (payload pt) |}] in
       response !! "answer" = Some (VStr (answer r))
       /\ response !! "question" = Some (VStr (question r))
       /\ response !! "source" = Some (VStr (source r))
       /\ response !! "group_id" = None.
Proof.
  assert (Hload : load_qa_pairs int_of_digits (Sheet one_pair)
                  = Ok [first_record]) by (vm_compute; reflexivity).
  destruct (build_points [first_record] (Embedder.__init__ local_settings)
              (steady [1%float]) []) as [[points|x] w'] eqn:H;
    [|vm_compute in H; discriminate H].
  assert (L : length points = 1).
  { unfold build_points in H.
    destruct (build_loop_points _ _ _ _ _ _ _ H) as (new & -> & F).
    symmetry. apply (Forall2_length _ _ _ F). }
  destruct points as [|pt [|? ?]]; try discriminate L.
  destruct (indexed_record_is_answered int_of_digits (Sheet one_pair)
              [first_record] _ _ _ _ _ (Retriever.__init__ "qa" 0.82%float 5)
              0 pt (Some 0.9%float) [] Hload H eq_refl) as (r & Hr & Hrest).
  exists [pt], w', pt, r. split; [reflexivity|]. split; [reflexivity|].
  split; [exact Hr|exact Hrest].
Defined.

Lemma requests_app (a b : trace) : requests (a ++ b) = requests a + requests b.
Proof. unfold requests. rewrite List.filter_app, List.length_app. reflexivity. Qed.

(** The calls of one [embed]: requests for the text and sleeps, at most
    three requests, and at least one when a vector is returned. *)
Lemma embed_calls (settings : Settings) (client : provider) (text : str)
  (w : trace) :
  exists calls,
    snd (Embedder.embed (Embedder.__init__ settings) client text w) = w ++ calls
    /\ requests calls <= 3
    /\ Forall (fun e => e = EmbeddingsCreate (embedding_model settings) text 30
                        \/ is_sleep e = true) calls
    /\ (forall v,
           fst (Embedder.embed (Embedder.__init__ settings) client text w)
           = Return v -> 1 <= requests calls).
Proof.
  destruct text as [|c t].
  - exists []. cbn. rewrite app_nil_r. split; [reflexivity|].
    split; [lia|]. split; [constructor|]. intros v H. discriminate H.
  - destruct (EmbedderFacts.embed_run settings client (c :: t) w)
      as (k & Hk & _ & _ & Hrun); [discriminate|].
    exists (Embedder.retry_events (Embedder.__init__ settings) (c :: t) k).
    rewrite Hrun. split; [reflexivity|].
    rewrite EmbedderSpec.requests_retry_events. split; [lia|].
    split; [|intros; lia].
    exact (EmbedderFacts.retry_events_calls (Embedder.__init__ settings)
             (c :: t) k).
Qed.

(** The calls of the loop of [build_points]. *)
Lemma build_loop_calls (settings : Settings) (client : provider) :
  forall (pairs : list QAPair) (acc : list PointStruct) (w : trace),
  exists calls,
    snd (build_loop (Embedder.__init__ settings) client pairs acc w)
    = w ++ calls
    /\ requests calls <= 3 * length pairs
    /\ Forall (fun e =>
                 (exists qa, qa ∈ pairs
                             /\ e = EmbeddingsCreate (embedding_model settings)
                                      (question qa) 30)
                 \/ is_sleep e = true) calls
    /\ (forall points,
           fst (build_loop (Embedder.__init__ settings) client pairs acc w)
           = Return points -> length pairs <= requests calls).
Proof.
  induction pairs as [|qa later IH]; intros acc w.
  - exists []. cbn. rewrite app_nil_r. split; [reflexivity|].
    split; [lia|]. split; [constructor|]. intros; lia.
  - destruct (embed_calls settings client (question qa) w)
      as (c1 & Hw1 & Hn1 & Hall1 & Hmin1).
    cbn [build_loop].
    assert (Hhere : Forall (fun e =>
                 (exists qa', qa' ∈ qa :: later
                              /\ e = EmbeddingsCreate (embedding_model settings)
                                       (question qa') 30)
                 \/ is_sleep e = true) c1).
    { eapply Forall_impl; [exact Hall1|]. intros e [He|He]; [left|right; exact He].
      exists qa. split; [apply list_elem_of_here|exact He]. }
    destruct (Embedder.embed (Embedder.__init__ settings) client (question qa) w)
      as [[embedding|e] w1]; cbn [fst snd] in *.
    2:{ exists c1. split; [exact Hw1|]. split; [cbn [length]; lia|].
        split; [exact Hhere|]. intros points H. discriminate H. }
    destruct (point_id (question qa)) as [pid|].
    2:{ exists c1. cbn [fst snd]. split; [exact Hw1|].
        split; [cbn [length]; lia|].
        split; [exact Hhere|]. intros points H. discriminate H. }
    destruct (IH (acc ++ [{| id := pid; vector := embedding;
                             payload := payload_of qa |}]) w1)
      as (c2 & Hw2 & Hn2 & Hall2 & Hmin2).
    subst w1. exists (c1 ++ c2). rewrite Hw2, <- app_assoc.
    split; [reflexivity|]. rewrite requests_app.
    split; [cbn [length]; lia|].
    split.
    { apply Forall_app_2; [exact Hhere|].
      eapply Forall_impl; [exact Hall2|].
      intros e [(qa' & Hin & He)|He]; [left|right; exact He].
      exists qa'. split; [apply list_elem_of_further; exact Hin|exact He]. }
    intros points H. specialize (Hmin1 embedding eq_refl).
    specialize (Hmin2 points H). cbn [length]. lia.
Qed.

(** The calls of [ensure_collection]: one look-up, and one creation at most. *)
Lemma ensure_collection_calls (env : world) (name : str) :
  let w1 := snd (ensure_collection env name []) in
  head w1 = Some (GetCollection name)
  /\ requests w1 = 0
  /\ Forall (fun e => is_create e = false) w1.
Proof.
  unfold ensure_collection.
  destruct (qdrant_get_collection env) as [[]|];
    try destruct (qdrant_create_collection env); cbn;
    (split; [reflexivity|split; [reflexivity|repeat constructor]]).
Qed.





(** X12. The only texts that a run of [main] sends to the embedding provider are
    the questions of the extracted records, with the model of the settings
    and the time-out 30: answers, sources and group ids are never sent. *)
Theorem main_embeds_questions_only (int_of_str : str -> option Z)
  (env : world) (file : workbook) (model input : str) (timeout : Z) :
  EmbeddingsCreate model input timeout ∈ snd (main int_of_str env file) ->
  exists records settings r,
    load_qa_pairs int_of_str file = Ok records
    /\ get_settings env = Return settings
    /\ r ∈ records
    /\ input = question r
    /\ model = embedding_model settings
    /\ timeout = 30%Z.
Proof.
  unfold main.
  destruct (load_qa_pairs int_of_str file) as [records|e];
    [|intros H; inversion H].
  destruct (get_settings env) as [settings|e]; [|intros H; inversion H].
  destruct (qdrant_connect env); [intros H; inversion H|].
  pose proof (ensure_collection_calls env (qdrant_collection settings))
    as (_ & _ & Hnone).
  destruct (ensure_collection env (qdrant_collection settings) [])
    as [[u|e] w1]; cbn [snd] in Hnone.
  2:{ cbn [snd]. intros H. rewrite Forall_forall in Hnone.
      specialize (Hnone _ H). discriminate Hnone. }
  destruct (build_loop_calls settings (openai env) records [] w1)
    as (c2 & Hw2 & _ & Hall & _).
  unfold build_points.
  destruct (build_loop (Embedder.__init__ settings) (openai env) records [] w1)
    as [r w2]. cbn [snd] in Hw2. subst w2.
  assert (Hin : EmbeddingsCreate model input timeout ∈ w1 ++ c2 ->
                exists records0 settings0 r0,
                  (Ok records : result load_error (list QAPair)) = Ok records0
                  /\ (Return settings : outcome Settings) = Return settings0
                  /\ r0 ∈ records0 /\ input = question r0
                  /\ model = embedding_model settings0 /\ timeout = 30%Z).
  { intros H. apply elem_of_app in H as [H|H].
    - rewrite Forall_forall in Hnone. specialize (Hnone _ H).
      discriminate Hnone.
    - rewrite Forall_forall in Hall.
      destruct (Hall _ H) as [(qa & Hqa & He)|He]; [|discriminate He].
      injection He as -> -> ->.
      exists records, settings, qa. repeat split. exact Hqa. }
  destruct r as [points|e]; [|exact Hin].
  destruct points as [|pt points]; [exact Hin|].
  assert (Hlast : EmbeddingsCreate model input timeout
                    ∈ (w1 ++ c2) ++ [Upsert (qdrant_collection settings)
                                       (pt :: points)] ->
                  EmbeddingsCreate model input timeout ∈ w1 ++ c2).
  { intros H. apply elem_of_app in H as [H|H]; [exact H|].
    apply list_elem_of_singleton in H. discriminate H. }
  destruct (qdrant_upsert env (pt :: points)); cbn [snd];
    intros H; exact (Hin (Hlast H)).
Qed.

Lemma main_embeds_questions_only_witness :
  exists records settings r,
    load_qa_pairs int_of_digits (Sheet one_pair) = Ok records
    /\ get_settings calm = Return settings
    /\ r ∈ records
    /\ lit "What is X?" = question r
    /\ default_embedding_model = embedding_model settings
    /\ 30%Z = 30%Z.
Proof.
  apply (main_embeds_questions_only int_of_digits calm (Sheet one_pair)
           default_embedding_model (lit "What is X?") 30).
  vm_compute. apply list_elem_of_further, list_elem_of_here.
Defined.

End PipelineFacts.

(** ** Properties of the query endpoint *)

Module QueryFacts.
Import IO QueryEndpoint.

Lemma decide_hits_score (self : Retriever.Retriever)
  (hits : list Retriever.ScoredPoint) :
  is_Some (Retriever.decide_hits self hits !! "score").
Proof.
  destruct hits as [|h rest].
  - eexists. reflexivity.
  - unfold Retriever.decide_hits, Retriever.copy_key.
    destruct (Retriever.low_confidence self h);
      [rewrite lookup_insert_ne by discriminate|];
      (destruct (_ !! "source"); [rewrite lookup_insert_ne by discriminate|]);
      (destruct (_ !! "question"); [rewrite lookup_insert_ne by discriminate|]);
      rewrite lookup_insert_ne by discriminate; rewrite lookup_insert_eq;
      eexists; reflexivity.
Qed.

Lemma decide_hits_true_answer (self : Retriever.Retriever)
  (hits : list Retriever.ScoredPoint) :
  exists a, Retriever.decide_hits self hits !! "answer" = Some a
            /\ truthy a = true.
Proof.
  destruct hits as [|h rest].
  - eexists. split; reflexivity.
  - eexists. split; [apply RetrieverSpec.decide_hits_answer|].
    apply RetrieverSpec.or_truthy.
Qed.

(** X13. The three ways a query ends. With a result, exactly one search was made
    and the result has a score key and a true answer. An [HTTPException] has
    the status 503: "Embedding service unavailable" before any search, or
    "Vector search unavailable" after the one search. An exception that is
    not handled comes from the embedding client, is neither [OpenAIError]
    nor [httpx.HTTPError], and leaves before any search. In every case at
    most three embedding requests and at most one search are made. *)
Theorem query_reply_cases (settings : Settings)
  (retriever : Retriever.Retriever) (client : provider) (qdrant : index)
  (query : str) (w : trace) :
  let r := query_endpoint (Embedder.__init__ settings) retriever client qdrant
             query w in
  length (searches r) <= 1
  /\ requests (calls r) <= requests w + 3
  /\ match response r with
     | OK result =>
         length (searches r) = 1
         /\ (exists a, result !! "answer" = Some a /\ truthy a = true)
         /\ is_Some (result !! "score")
     | HTTPException status_code detail =>
         status_code = 503%Z
         /\ (detail = "Embedding service unavailable" /\ searches r = []
             \/ detail = "Vector search unavailable"
                /\ length (searches r) = 1)
     | Unhandled e => searches r = [] /\ Embedder.caught e = false
     end.
Proof.
  intros r. subst r. unfold query_endpoint.
  destruct query as [|c t].
  { cbn [Embedder.embed response calls searches length].
    split; [lia|]. split; [lia|]. split; [reflexivity|].
    left. split; reflexivity. }
  destruct (EmbedderFacts.embed_run settings client (c :: t) w)
    as (k & Hk & _ & _ & Hrun); [discriminate|].
  rewrite Hrun.
  assert (Hreq : requests
                   (w ++ Embedder.retry_events (Embedder.__init__ settings)
                           (c :: t) k) <= requests w + 3).
  { rewrite PipelineFacts.requests_app, EmbedderSpec.requests_retry_events.
    lia. }
  destruct (client (requests w + k) (c :: t)) as [[|v d]|e]; cbn [Embedder.settle].
  - cbn [response calls searches length].
    split; [lia|]. split; [exact Hreq|]. split; reflexivity.
  - unfold Retriever.search.
    destruct (qdrant v) as [hits|e]; cbn [response calls searches length].
    + split; [lia|]. split; [exact Hreq|]. split; [reflexivity|].
      split; [apply decide_hits_true_answer|apply decide_hits_score].
    + split; [lia|]. split; [exact Hreq|]. split; [reflexivity|].
      right. split; reflexivity.
  - destruct (Embedder.caught e) eqn:Hc.
    + cbn [response calls searches length].
      split; [lia|]. split; [exact Hreq|]. split; [reflexivity|].
      left. split; reflexivity.
    + destruct e; cbn [response calls searches length];
        (split; [lia|]); (split; [exact Hreq|]);
        try (split; [reflexivity|exact Hc]);
        (split; [reflexivity|left; split; reflexivity]).
Qed.

(** X14. An empty query, and a provider that fails with [OpenAIError] or
    [httpx.HTTPError] on three requests in a row, both end in the status 503
    "Embedding service unavailable" without a search; the empty query does
    not even reach the provider, the other one makes exactly three
    requests. *)
Theorem query_unavailable (settings : Settings)
  (retriever : Retriever.Retriever) (client : provider) (qdrant : index)
  (query : str) (w : trace) :
  query = []
  \/ (forall j, j < 3 -> Embedder.retried (client (requests w + j) query) = true) ->
  let r := query_endpoint (Embedder.__init__ settings) retriever client qdrant
             query w in
  response r = HTTPException 503 "Embedding service unavailable"
  /\ searches r = []
  /\ (query = [] -> calls r = w)
  /\ (query <> [] -> requests (calls r) = requests w + 3).
Proof.
  intros H r. subst r. unfold query_endpoint.
  destruct query as [|c t].
  { cbn [Embedder.embed response calls searches].
    split; [reflexivity|]. split; [reflexivity|]. split; [reflexivity|].
    intros Hq. contradiction. }
  destruct H as [H|H]; [discriminate H|].
  destruct (EmbedderFacts.embed_run settings client (c :: t) w)
    as (k & Hk & _ & Hn & Hrun); [discriminate|].
  assert (k = 2) as ->.
  { destruct (Nat.eq_dec k 2) as [E|E]; [exact E|].
    assert (Hk2 : k < 2) by lia. specialize (Hn Hk2).
    rewrite (H k Hk) in Hn. discriminate Hn. }
  rewrite Hrun. specialize (H 2 Hk).
  destruct (client (requests w + 2) (c :: t)) as [d|e]; [discriminate H|].
  cbn [Embedder.retried] in H. cbn [Embedder.settle]. rewrite H.
  cbn [response calls searches].
  split; [reflexivity|]. split; [reflexivity|].
  split; [discriminate|]. intros _.
  rewrite PipelineFacts.requests_app, EmbedderSpec.requests_retry_events. lia.
Qed.

Lemma query_unavailable_witness :
  response (query_endpoint (Embedder.__init__ local_settings)
              (Retriever.__init__ "qa" 0.82%float 5) down empty_index
              (lit "hi") [])
  = HTTPException 503 "Embedding service unavailable"
  /\ calls (query_endpoint (Embedder.__init__ local_settings)
              (Retriever.__init__ "qa" 0.82%float 5) down empty_index [] [])
     = [].
Proof.
  split.
  - apply (query_unavailable local_settings
             (Retriever.__init__ "qa" 0.82%float 5) down empty_index
             (lit "hi") []).
    right. intros j Hj. reflexivity.
  - apply (query_unavailable local_settings
             (Retriever.__init__ "qa" 0.82%float 5) down empty_index [] []);
      [left|]; reflexivity.
Defined.

End QueryFacts.

(** ** Properties of the frontend *)

Module FrontendFacts.
Import Frontend.

Lemma strip_cons_trimmed (s : str) (c : N) (l : str) :
  strip s = c :: l -> c :: l <> [] /\ trimmed (c :: l).
Proof.
  intros H. split; [discriminate|]. rewrite <- H.
  apply TextFacts.strip_trimmed.
Qed.

(** X15. [handle_submission] only appends to the history: nothing for no input or
    a blank one, the question, or the question and the answer. What it
    appends is never empty and has no white space at either end; the
    backend is asked at most once, with the question as it is stored, and
    only when the question is stored. *)
Theorem history_append_only (server : str -> http_response)
  (user_query : option str) (history : list message) :
  let p := handle_submission server user_query history in
  exists added,
    messages p = history ++ added
    /\ (map role added = [] \/ map role added = ["user"]
        \/ map role added = ["user"; "assistant"])
    /\ Forall (fun m => content m <> [] /\ trimmed (content m)) added
    /\ posted p = map content (take 1 added).
Proof.
  intros p. subst p. unfold handle_submission.
  destruct user_query as [q|].
  2:{ exists []. rewrite app_nil_r. repeat split; [left; reflexivity|constructor]. }
  destruct (strip q) as [|c l] eqn:Hq.
  { exists []. rewrite app_nil_r. repeat split; [left; reflexivity|constructor]. }
  destruct (strip_cons_trimmed q c l Hq) as [Hne Htr].
  assert (Huser : Forall (fun m => content m <> [] /\ trimmed (content m))
                    [{| role := "user"; content := c :: l |}]).
  { constructor; [split; assumption|constructor]. }
  destruct (post_query server (c :: l)) as [payload|e].
  2:{ exists [{| role := "user"; content := c :: l |}].
      repeat split; [right; left; reflexivity|exact Huser]. }
  destruct (match payload !! "answer" with Some v => v | None => VStr [] end)
    as [ | | | |text| | ];
    try (exists [{| role := "user"; content := c :: l |}];
         repeat split; [right; left; reflexivity|exact Huser]).
  destruct (strip text) as [|c' l'] eqn:Ha.
  { exists [{| role := "user"; content := c :: l |}].
    repeat split; [right; left; reflexivity|exact Huser]. }
  destruct (strip_cons_trimmed text c' l' Ha) as [Hne' Htr'].
  exists [{| role := "user"; content := c :: l |};
          {| role := "assistant"; content := c' :: l' |}].
  cbn [messages posted]. rewrite <- app_assoc.
  repeat split; try assumption; try (right; right; reflexivity).
  constructor; [split; assumption|].
  constructor; [split; assumption|constructor].
Qed.

(** X16. Of the fields the backend returns, [handle_submission] reads the answer
    and nothing else: two replies with the same status and the same answer
    leave the page in the same state, so the warning, the score, the
    question and the source of a reply are never shown. *)
Theorem only_the_answer_is_shown (status : Z)
  (fields1 fields2 : gmap string pyval) (user_query : option str)
  (history : list message) :
  fields1 !! "answer" = fields2 !! "answer" ->
  handle_submission (fun _ => Replied status (JsonObject fields1))
    user_query history
  = handle_submission (fun _ => Replied status (JsonObject fields2))
      user_query history.
Proof.
  intros H. unfold handle_submission, post_query.
  destruct user_query as [q|]; [|reflexivity].
  destruct (strip q); [reflexivity|].
  destruct ((400 <=? status) && (status <? 600))%Z; [reflexivity|].
  rewrite H. reflexivity.
Qed.

Lemma only_the_answer_is_shown_witness :
  handle_submission
    (answering (<["answer" := VStr (lit "X is Y.")]>
                  (<["warning" := VStr Retriever.LOW_CONFIDENCE]> ∅)))
    (Some (lit " What is X? ")) []
  = handle_submission (answering (<["answer" := VStr (lit "X is Y.")]> ∅))
      (Some (lit " What is X? ")) [].
Proof.
  apply (only_the_answer_is_shown 200). reflexivity.
Defined.

End FrontendFacts.
